(** * Payment backend (src/index.ts): request handlers over a JavaScript value model

    The program is one Express module with five routes; three of them talk to
    the payment gateway SDK.  The handlers read dynamically typed request
    bodies (the TypeScript annotations are erased at run time), so the
    embedding keeps JavaScript values, truthiness, property reads that throw
    on [null]/[undefined], and [try]/[catch].  Each handler is a computation
    that completes normally or abruptly and leaves a trace of the effects it
    performed: console output, gateway calls and the HTTP response. *)

From Stdlib Require Import List String Ascii ZArith Bool Lia.
From Stdlib Require Import SpecFloat DecimalString.
From Stdlib Require DecimalPos DecimalZ.
Import ListNotations.
Local Open Scope string_scope.
Set Warnings "-register-all".

(** ** JavaScript values *)

Module Js.

(** A number is an IEEE-754 double; [spec_float] is the Standard Library's
    inductive description of one. *)
Definition number := spec_float.

(** Values that JSON can carry, plus [undefined].  An object is the list of
    its own properties, the first binding of a name being the property; the
    only thing the program asks of a string's length is whether it is 0. *)
Inductive value : Type :=
| VUndefined
| VNull
| VBool (b : bool)
| VNum (n : number)
| VStr (s : string)
| VArr (elems : list value)
| VObj (props : list (string * value)).

(** The value a [throw] carries.  [ErrorInstance] is any object for which
    [instanceof Error] holds, with its [message]; [Thrown] is any other
    value (the language lets a promise reject with anything). *)
Inductive thrown : Type :=
| ErrorInstance (message : string)
| Thrown (v : value).

(** The number of a length.  The mantissa is not normalised; equality below
    compares the denoted values. *)
Definition number_of_nat (n : nat) : number :=
  match n with
  | O => S754_zero false
  | S _ => S754_finite false (Pos.of_nat n) 0
  end.

Definition zero : number := S754_zero false.

Definition finite_eqb (m1 : positive) (e1 : Z) (m2 : positive) (e2 : Z) : bool :=
  let e := Z.min e1 e2 in
  (Z.pos m1 * 2 ^ (e1 - e) =? Z.pos m2 * 2 ^ (e2 - e))%Z.

(** [x === y] on numbers: NaN equals nothing, the two zeros are equal. *)
Definition number_eqb (x y : number) : bool :=
  match x, y with
  | S754_zero _, S754_zero _ => true
  | S754_infinity s1, S754_infinity s2 => Bool.eqb s1 s2
  | S754_finite s1 m1 e1, S754_finite s2 m2 e2 =>
      Bool.eqb s1 s2 && finite_eqb m1 e1 m2 e2
  | _, _ => false
  end.

(** ToBoolean: what [!v], [v ? a : b] and [v || w] test. *)
Definition to_boolean (v : value) : bool :=
  match v with
  | VUndefined | VNull => false
  | VBool b => b
  | VNum (S754_zero _) | VNum S754_nan => false
  | VNum _ => true
  | VStr s => negb (s =? "")
  | VArr _ | VObj _ => true
  end.

(** [v === w] where one side is a primitive written in the program text
    (['payment'], [0], ['approved'], ...).  Arrays and objects compare by
    identity, and none is identical to a fresh literal. *)
Definition strict_eq (v w : value) : bool :=
  match v, w with
  | VUndefined, VUndefined => true
  | VNull, VNull => true
  | VBool a, VBool b => Bool.eqb a b
  | VNum a, VNum b => number_eqb a b
  | VStr a, VStr b => (a =? b)
  | _, _ => false
  end.

(** [a || b]. *)
Definition or_else (a b : value) : value :=
  if to_boolean a then a else b.

Fixpoint assoc (k : string) (props : list (string * value)) : option value :=
  match props with
  | [] => None
  | (k', v) :: rest => if k =? k' then Some v else assoc k rest
  end.

(** Reading an own property of an object; a missing one reads [undefined]. *)
Definition field (props : list (string * value)) (k : string) : value :=
  match assoc k props with
  | Some v => v
  | None => VUndefined
  end.

(** Conversion of a value inside a template literal, for the only shapes the
    program interpolates: a string that may be [undefined], and an integer. *)
Definition template_of_string (s : option string) : string :=
  match s with
  | Some s => s
  | None => "undefined"
  end.

Definition template_of_integer (z : Z) : string :=
  NilZero.string_of_int (Z.to_int z).

End Js.
Export Js.

(** ** Computations: completion and trace *)

(** The session request handed to [preference.create]. *)
Record Item : Type := mkItem {
  item_id : value;
  item_title : value;
  item_quantity : value;
  item_unit_price : value;
  item_currency_id : value
}.

Record PaymentMethods : Type := mkPaymentMethods {
  excluded_payment_methods : list value;
  excluded_payment_types : list value;
  installments : Z
}.

Record BackUrls : Type := mkBackUrls {
  success : string;
  failure : string;
  pending : string
}.

Record PayerBlock : Type := mkPayerBlock {
  payer_name : value;
  payer_email : value;
  payer_phone : value
}.

Record PreferenceData : Type := mkPreferenceData {
  items : list Item;
  payment_methods : PaymentMethods;
  back_urls : BackUrls;
  auto_return : string;
  payer : option PayerBlock;
  notification_url : string;
  statement_descriptor : string;
  external_reference : string
}.

(** What [console.log] / [console.error] is given after its label. *)
Inductive logged : Type :=
| LogValue (v : value)
| LogPreference (p : PreferenceData)
| LogThrown (t : thrown).

Inductive event : Type :=
| ConsoleLog (label : string) (arg : logged)
| ConsoleError (label : string) (arg : logged)
| PreferenceCreate (body : PreferenceData)
| PaymentGet (id : value)
| Respond (status : Z) (body : value).

Definition trace := list event.

Inductive completion (A : Type) : Type :=
| Normal (a : A)
| Throw (t : thrown).
Arguments Normal {A} a.
Arguments Throw {A} t.

(** A computation: how it completes and what it did, in order. *)
Definition M (A : Type) : Type := completion A * trace.

Definition ret {A} (a : A) : M A := (Normal a, []).

Definition throw {A} (t : thrown) : M A := (Throw t, []).

Definition bind {A B} (m : M A) (k : A -> M B) : M B :=
  match m with
  | (Normal a, tr) => let (r, tr') := k a in (r, (tr ++ tr')%list)
  | (Throw t, tr) => (Throw t, tr)
  end.

(** [try { m } catch (error) { h error }]. *)
Definition try_catch {A} (m : M A) (h : thrown -> M A) : M A :=
  match m with
  | (Normal a, tr) => (Normal a, tr)
  | (Throw t, tr) => let (r, tr') := h t in (r, (tr ++ tr')%list)
  end.

Definition emit (e : event) : M unit := (Normal tt, [e]).

Definition lift {A} (c : completion A) : M A := (c, []).

Notation "x <- m ;; k" := (bind m (fun x => k))
  (at level 61, m at next level, right associativity).
Notation "m ;;; k" := (bind m (fun _ => k))
  (at level 61, right associativity).

Definition outcome {A} (m : M A) : completion A := fst m.
Definition effects {A} (m : M A) : trace := snd m.

(** ** Property reads and calls that may throw *)

Definition type_error {A} (msg : string) : completion A :=
  Throw (ErrorInstance msg).

(** [v.k].  Reading from [undefined] or [null] throws a TypeError (the
    message is the engine's; nothing below depends on its text).  A primitive
    or an array reads [undefined] for a name it does not have.  The names the
    program reads are not array indices and none is inherited from
    [Object.prototype], so own properties decide. *)
Definition get_prop (v : value) (k : string) : completion value :=
  match v with
  | VUndefined =>
      type_error ("Cannot read properties of undefined (reading '" ++ k ++ "')")
  | VNull =>
      type_error ("Cannot read properties of null (reading '" ++ k ++ "')")
  | VObj props => Normal (field props k)
  | VArr elems =>
      Normal (if k =? "length" then VNum (number_of_nat (List.length elems))
              else VUndefined)
  | VStr s =>
      Normal (if k =? "length" then VNum (number_of_nat (String.length s))
              else VUndefined)
  | VBool _ | VNum _ => Normal VUndefined
  end.

(** [xs.map(f)] for a callback [f] that has no effect but may throw: elements
    are visited in order and the first throw ends the call. *)
Fixpoint map_elems {A} (f : value -> completion A) (xs : list value)
  : completion (list A) :=
  match xs with
  | [] => Normal []
  | x :: rest =>
      match f x with
      | Throw t => Throw t
      | Normal y =>
          match map_elems f rest with
          | Throw t => Throw t
          | Normal ys => Normal (y :: ys)
          end
      end
  end.

(** [v.map(f)]: only an array has a callable [map]; a parsed JSON object can
    hold a [map] property, never a function. *)
Definition call_map {A} (v : value) (f : value -> completion A)
  : completion (list A) :=
  match v with
  | VArr elems => map_elems f elems
  | VUndefined => type_error "Cannot read properties of undefined (reading 'map')"
  | VNull => type_error "Cannot read properties of null (reading 'map')"
  | _ => type_error "items.map is not a function"
  end.

(** ** The environment of a request *)

(** How a gateway promise settles.  The SDK declares both calls to resolve
    to an object ([PreferenceResponse], [PaymentResponse]); a rejection
    carries any value. *)
Inductive settled : Type :=
| Resolved (props : list (string * value))
| Rejected (t : thrown).

(** What the handlers read from outside: [process.env.FRONTEND_URL],
    [Date.now()], and the gateway behind [preference.create] and
    [payment.get].  A handler calls the gateway at most once, so a function
    of the argument describes any behaviour the gateway can show. *)
Record Env : Type := mkEnv {
  FRONTEND_URL : option string;
  now : Z;
  preference_create : PreferenceData -> settled;
  payment_get : value -> settled
}.

(** The parts of [req] the handlers read: [req.body], [req.protocol],
    [req.get('host')], [req.params.id]. *)
Record Request : Type := mkRequest {
  body : value;
  protocol : string;
  host : option string;
  params_id : string
}.

Definition await (call : event) (s : settled) : M (list (string * value)) :=
  emit call ;;;
  match s with
  | Resolved props => ret props
  | Rejected t => throw t
  end.

(** [res.status(code).json(body)]; [res.json(body)] is the same with 200. *)
Definition res_json (status : Z) (body : value) : M unit :=
  emit (Respond status body).

(** ** POST /api/create-preference *)

(** The callback of [items.map]. *)
Definition product_item (item : value) : completion Item :=
  match get_prop item "id" with Throw t => Throw t | Normal id =>
  match get_prop item "title" with Throw t => Throw t | Normal title =>
  match get_prop item "quantity" with Throw t => Throw t | Normal quantity =>
  match get_prop item "unit_price" with Throw t => Throw t | Normal unit_price =>
  match get_prop item "currency_id" with Throw t => Throw t | Normal currency_id =>
    Normal {| item_id := id;
              item_title := title;
              item_quantity := quantity;
              item_unit_price := unit_price;
              item_currency_id := or_else currency_id (VStr "PEN") |}
  end end end end end.

(** [payer ? { name: payer.name, ... } : undefined]. *)
Definition payer_block (p : value) : M (option PayerBlock) :=
  if to_boolean p then
    name <- lift (get_prop p "name") ;;
    email <- lift (get_prop p "email") ;;
    phone <- lift (get_prop p "phone") ;;
    ret (Some {| payer_name := name; payer_email := email; payer_phone := phone |})
  else ret None.

Definition preferenceData (env : Env) (req : Request)
    (its : list Item) (pay : option PayerBlock) : PreferenceData :=
  {| items := its;
     payment_methods :=
       {| excluded_payment_methods := [];
          excluded_payment_types := [];
          installments := 12 |};
     back_urls :=
       {| success := template_of_string (FRONTEND_URL env) ++ "/success";
          failure := template_of_string (FRONTEND_URL env) ++ "/failure";
          pending := template_of_string (FRONTEND_URL env) ++ "/pending" |};
     auto_return := "approved";
     payer := pay;
     notification_url :=
       protocol req ++ "://" ++ template_of_string (host req) ++ "/api/webhook";
     statement_descriptor := "MI_ECOMMERCE";
     external_reference := "order_" ++ template_of_integer (now env) |}.

(** [!items || items.length === 0]; the right operand is evaluated only when
    [items] is truthy. *)
Definition items_missing (its : value) : M bool :=
  if negb (to_boolean its) then ret true
  else len <- lift (get_prop its "length") ;; ret (strict_eq len (VNum zero)).

(** [error instanceof Error ? error.message : 'Unknown error']. *)
Definition details_of (error : thrown) : value :=
  match error with
  | ErrorInstance message => VStr message
  | Thrown _ => VStr "Unknown error"
  end.

(** The body of the [try] block. *)
Definition create_preference_try (env : Env) (req : Request) : M unit :=
  its <- lift (get_prop (body req) "items") ;;
  pay <- lift (get_prop (body req) "payer") ;;
  emit (ConsoleLog "Datos recibidos para crear preferencia:" (LogValue (body req))) ;;;
  missing <- items_missing its ;;
  if missing : bool then
    res_json 400 (VObj [("error", VStr "Items are required")])
  else
    mapped <- lift (call_map its product_item) ;;
    block <- payer_block pay ;;
    let data := preferenceData env req mapped block in
    emit (ConsoleLog "PreferenceData final:" (LogPreference data)) ;;;
    result <- await (PreferenceCreate data) (preference_create env data) ;;
    res_json 200 (VObj [("id", field result "id");
                        ("init_point", field result "init_point");
                        ("sandbox_init_point", field result "sandbox_init_point")]).

Definition create_preference_catch (error : thrown) : M unit :=
  emit (ConsoleError "Error creating preference:" (LogThrown error)) ;;;
  res_json 500 (VObj [("error", VStr "Error creating payment preference");
                      ("details", details_of error)]).

Definition create_preference (env : Env) (req : Request) : M unit :=
  try_catch (create_preference_try env req) create_preference_catch.

(** ** POST /api/webhook *)

(** [switch (paymentInfo.status)]: three logging cases, no default. *)
Definition status_switch (status paymentId : value) : M unit :=
  if strict_eq status (VStr "approved") then
    emit (ConsoleLog "Pago aprobado:" (LogValue paymentId))
  else if strict_eq status (VStr "pending") then
    emit (ConsoleLog "Pago pendiente:" (LogValue paymentId))
  else if strict_eq status (VStr "rejected") then
    emit (ConsoleLog "Pago rechazado:" (LogValue paymentId))
  else ret tt.

Definition webhook_try (env : Env) (req : Request) : M unit :=
  ty <- lift (get_prop (body req) "type") ;;
  data <- lift (get_prop (body req) "data") ;;
  emit (ConsoleLog "Webhook received:"
          (LogValue (VObj [("type", ty); ("data", data)]))) ;;;
  (if strict_eq ty (VStr "payment") then
     paymentId <- lift (get_prop data "id") ;;
     paymentInfo <- await (PaymentGet paymentId) (payment_get env paymentId) ;;
     emit (ConsoleLog "Payment info:"
             (LogValue (VObj [("id", field paymentInfo "id");
                              ("status", field paymentInfo "status");
                              ("external_reference",
                                 field paymentInfo "external_reference");
                              ("transaction_amount",
                                 field paymentInfo "transaction_amount")]))) ;;;
     status_switch (field paymentInfo "status") paymentId
   else ret tt) ;;;
  res_json 200 (VObj [("received", VBool true)]).

Definition webhook_catch (error : thrown) : M unit :=
  emit (ConsoleError "Webhook error:" (LogThrown error)) ;;;
  res_json 500 (VObj [("error", VStr "Webhook processing failed")]).

Definition webhook (env : Env) (req : Request) : M unit :=
  try_catch (webhook_try env req) webhook_catch.

(** ** GET /api/payment/:id *)

Definition payment_projection (paymentInfo : list (string * value)) : value :=
  VObj [("id", field paymentInfo "id");
        ("status", field paymentInfo "status");
        ("status_detail", field paymentInfo "status_detail");
        ("transaction_amount", field paymentInfo "transaction_amount");
        ("currency_id", field paymentInfo "currency_id");
        ("payment_method_id", field paymentInfo "payment_method_id");
        ("external_reference", field paymentInfo "external_reference");
        ("date_created", field paymentInfo "date_created")].

Definition get_payment_try (env : Env) (req : Request) : M unit :=
  let paymentId := VStr (params_id req) in
  paymentInfo <- await (PaymentGet paymentId) (payment_get env paymentId) ;;
  res_json 200 (payment_projection paymentInfo).

Definition get_payment_catch (error : thrown) : M unit :=
  emit (ConsoleError "Error getting payment info:" (LogThrown error)) ;;;
  res_json 500 (VObj [("error", VStr "Error getting payment information");
                      ("details", details_of error)]).

Definition get_payment (env : Env) (req : Request) : M unit :=
  try_catch (get_payment_try env req) get_payment_catch.

(** ** Reading a trace *)

Definition is_response (e : event) : bool :=
  match e with Respond _ _ => true | _ => false end.

Definition is_gateway_call (e : event) : bool :=
  match e with PreferenceCreate _ | PaymentGet _ => true | _ => false end.

Definition is_console (e : event) : bool :=
  match e with ConsoleLog _ _ | ConsoleError _ _ => true | _ => false end.

(** The responses a handler sent, the gateway calls it made, and what it did
    apart from console output. *)
Definition responses (m : M unit) : list event := filter is_response (effects m).
Definition gateway_calls (m : M unit) : list event :=
  filter is_gateway_call (effects m).
Definition observable (m : M unit) : list event :=
  filter (fun e => negb (is_console e)) (effects m).

(** ** Descriptions used by the statements *)

Definition nullish (v : value) : bool :=
  match v with
  | VUndefined | VNull => true
  | _ => false
  end.

(** [v.k] for a [v] already known not to be [null] or [undefined]. *)
Definition read (v : value) (k : string) : value :=
  match get_prop v k with
  | Normal x => x
  | Throw _ => VUndefined
  end.

(** The payer block as a function of the request's [payer]. *)
Definition payer_of (p : value) : option PayerBlock :=
  if to_boolean p then
    Some {| payer_name := read p "name";
            payer_email := read p "email";
            payer_phone := read p "phone" |}
  else None.

Definition received_log (req : Request) : event :=
  ConsoleLog "Datos recibidos para crear preferencia:" (LogValue (body req)).

(** What the create-preference handler does once the session request [data]
    is built. *)
Definition gateway_round (env : Env) (data : PreferenceData) : trace :=
  match preference_create env data with
  | Resolved result =>
      [PreferenceCreate data;
       Respond 200 (VObj [("id", field result "id");
                          ("init_point", field result "init_point");
                          ("sandbox_init_point", field result "sandbox_init_point")])]
  | Rejected t =>
      [PreferenceCreate data;
       ConsoleError "Error creating preference:" (LogThrown t);
       Respond 500 (VObj [("error", VStr "Error creating payment preference");
                          ("details", details_of t)])]
  end.

Definition webhook_log (ty data : value) : event :=
  ConsoleLog "Webhook received:" (LogValue (VObj [("type", ty); ("data", data)])).

Definition payment_info_log (paymentInfo : list (string * value)) : event :=
  ConsoleLog "Payment info:"
    (LogValue (VObj [("id", field paymentInfo "id");
                     ("status", field paymentInfo "status");
                     ("external_reference", field paymentInfo "external_reference");
                     ("transaction_amount", field paymentInfo "transaction_amount")])).

Definition received_true : value := VObj [("received", VBool true)].

Definition webhook_failed : value := VObj [("error", VStr "Webhook processing failed")].

(** The message a failure carries, read the way the error taxonomy words it:
    an [Error] carries its [message]; any other rejection value carries the
    [message] property it has, if it has one. *)
Definition carried_message (t : thrown) : option value :=
  match t with
  | ErrorInstance message => Some (VStr message)
  | Thrown v =>
      match get_prop v "message" with
      | Normal VUndefined => None
      | Normal m => Some m
      | Throw _ => None
      end
  end.

(** The [details] the taxonomy promises for a failure. *)
Definition forwarded_details (t : thrown) : value :=
  match carried_message t with
  | Some m => m
  | None => VStr "Unknown error"
  end.

(** ** Sample inputs *)

Module Sample.

(** The number 2, for a quantity. *)
Definition two : number := S754_finite false 1 1.

(** The number 1299.5, for a price. *)
Definition price : number := S754_finite false 2599 (-1).

Definition laptop : value :=
  VObj [("id", VStr "sku-1"); ("title", VStr "Laptop");
        ("quantity", VNum two); ("unit_price", VNum price);
        ("currency_id", VStr "USD"); ("color", VStr "grey")].

Definition mouse : value :=
  VObj [("id", VStr "sku-2"); ("title", VStr "Mouse");
        ("quantity", VNum two); ("unit_price", VNum price);
        ("currency_id", VStr "")].

Definition session : list (string * value) :=
  [("id", VStr "pref-1");
   ("init_point", VStr "https://gateway.example/init");
   ("sandbox_init_point", VStr "https://sandbox.gateway.example/init");
   ("api_response", VObj [])].

Definition payment_record (status : string) : list (string * value) :=
  [("id", VNum two); ("status", VStr status);
   ("status_detail", VStr "accredited");
   ("transaction_amount", VNum price);
   ("currency_id", VStr "PEN");
   ("payment_method_id", VStr "visa");
   ("external_reference", VStr "order_1700000000000");
   ("date_created", VStr "2023-11-14T22:13:20.000Z");
   ("payer", VObj [])].

(** A gateway that answers every call. *)
Definition env : Env :=
  {| FRONTEND_URL := Some "https://shop.example";
     now := 1700000000000;
     preference_create := fun _ => Resolved session;
     payment_get := fun _ => Resolved (payment_record "approved") |}.

(** A gateway whose calls time out: the SDK rejects with an [Error]. *)
Definition env_timeout : Env :=
  {| FRONTEND_URL := Some "https://shop.example";
     now := 1700000000000;
     preference_create := fun _ => Rejected (ErrorInstance "The operation was aborted.");
     payment_get := fun _ => Rejected (ErrorInstance "The operation was aborted.") |}.

(** A gateway that rejects with the parsed body of an error response, a
    plain object that has a [message] property. *)
Definition api_error : thrown :=
  Thrown (VObj [("message", VStr "invalid access token"); ("status", VNum two)]).

Definition env_api_error : Env :=
  {| FRONTEND_URL := Some "https://shop.example";
     now := 1700000000000;
     preference_create := fun _ => Rejected api_error;
     payment_get := fun _ => Rejected api_error |}.

Definition request (b : value) : Request :=
  {| body := b; protocol := "https"; host := Some "api.shop.example";
     params_id := "123" |}.

Definition cart : Request := request (VObj [("items", VArr [laptop; mouse])]).
Definition payment_event : Request :=
  request (VObj [("type", VStr "payment"); ("data", VObj [("id", VStr "123")])]).
Definition payment_event_no_data : Request :=
  request (VObj [("type", VStr "payment")]).
Definition other_event : Request :=
  request (VObj [("type", VStr "merchant_order"); ("data", VObj [("id", VStr "9")])]).

(** The session request the handler builds for [cart]. *)
Definition sent_items : list Item :=
  [ {| item_id := VStr "sku-1"; item_title := VStr "Laptop";
       item_quantity := VNum two; item_unit_price := VNum price;
       item_currency_id := VStr "USD" |};
    {| item_id := VStr "sku-2"; item_title := VStr "Mouse";
       item_quantity := VNum two; item_unit_price := VNum price;
       item_currency_id := VStr "PEN" |} ].

Definition sent : PreferenceData := preferenceData env cart sent_items None.

End Sample.

(** ** Start-up configuration *)

(** An environment variable as the program sees it: a string when set,
    [undefined] when not. *)
Definition env_value (v : option string) : value :=
  match v with
  | Some s => VStr s
  | None => VUndefined
  end.

(** The [origin] option given to [cors]:
    [process.env.FRONTEND_URL || 'http://localhost:8080']. *)
Definition cors_origin (env : Env) : value :=
  or_else (env_value (FRONTEND_URL env)) (VStr "http://localhost:8080").

(** ** Shapes of a run *)

Definition status_of (e : event) : option Z :=
  match e with
  | Respond status _ => Some status
  | _ => None
  end.

(** The handler did some things that are not responses and then sent one
    response, with a status among [allowed]. *)
Definition answers_once (allowed : list Z) (m : M unit) : Prop :=
  outcome m = Normal tt /\
  exists before status body,
    effects m = (before ++ [Respond status body])%list /\
    filter is_response before = [] /\
    In status allowed.

(** ** Basic facts about reads and the monad *)

Lemma get_prop_total (v : value) (k k' : string) (x : value) :
  get_prop v k = Normal x -> exists y, get_prop v k' = Normal y.
Proof.
  destruct v; simpl; intros H; try discriminate; eauto.
Qed.

Lemma truthy_get_prop (v : value) (k : string) :
  to_boolean v = true -> exists y, get_prop v k = Normal y.
Proof.
  destruct v; simpl; intros H; try discriminate; eauto.
Qed.

Lemma bind_lift_normal {A B} (c : completion A) (a : A) (k : A -> M B) :
  c = Normal a -> bind (lift c) k = k a.
Proof.
  intros ->. unfold bind, lift. destruct (k a) as [r tr]. reflexivity.
Qed.

Lemma bind_lift_throw {A B} (c : completion A) (t : thrown) (k : A -> M B) :
  c = Throw t -> bind (lift c) k = throw t.
Proof.
  intros ->. reflexivity.
Qed.

Lemma bind_emit {B} (e : event) (k : unit -> M B) :
  bind (emit e) k = (outcome (k tt), e :: effects (k tt)).
Proof.
  unfold bind, emit, outcome, effects. destruct (k tt) as [r tr]. reflexivity.
Qed.

Lemma nonempty_array_not_missing (x : value) (xs : list value) :
  items_missing (VArr (x :: xs)) = ret false.
Proof. reflexivity. Qed.

Lemma falsy_items_missing (its : value) :
  to_boolean its = false -> items_missing its = ret true.
Proof. unfold items_missing. intros ->. reflexivity. Qed.

(** The run of the handler when the validation rejects the request. *)
Lemma create_preference_rejected (env : Env) (req : Request) (its : value) :
  get_prop (body req) "items" = Normal its ->
  items_missing its = ret true ->
  create_preference env req =
    (Normal tt,
     [ConsoleLog "Datos recibidos para crear preferencia:" (LogValue (body req));
      Respond 400 (VObj [("error", VStr "Items are required")])]).
Proof.
  intros Hits Hmiss.
  destruct (get_prop_total _ _ "payer" _ Hits) as [pay Hpay].
  unfold create_preference, create_preference_try.
  rewrite (bind_lift_normal _ _ _ Hits), (bind_lift_normal _ _ _ Hpay).
  rewrite bind_emit, Hmiss. reflexivity.
Qed.

Lemma items_missing_total (its : value) : exists b, items_missing its = ret b.
Proof.
  unfold items_missing. destruct (to_boolean its) eqn:T; simpl.
  - destruct (truthy_get_prop its "length" T) as [len ->].
    eexists. reflexivity.
  - eexists. reflexivity.
Qed.

Lemma payer_block_ret (p : value) : payer_block p = ret (payer_of p).
Proof.
  unfold payer_block, payer_of, read.
  destruct (to_boolean p) eqn:T; [|reflexivity].
  destruct (truthy_get_prop p "name" T) as [n ->].
  destruct (truthy_get_prop p "email" T) as [e ->].
  destruct (truthy_get_prop p "phone" T) as [ph ->].
  reflexivity.
Qed.

(** The run of the handler when the validation lets the request through and
    every item can be read. *)
Lemma create_preference_accepted (env : Env) (req : Request)
    (its pay : value) (mapped : list Item) :
  get_prop (body req) "items" = Normal its ->
  get_prop (body req) "payer" = Normal pay ->
  items_missing its = ret false ->
  call_map its product_item = Normal mapped ->
  let data := preferenceData env req mapped (payer_of pay) in
  create_preference env req =
    (Normal tt,
     received_log req :: ConsoleLog "PreferenceData final:" (LogPreference data)
       :: gateway_round env data).
Proof.
  intros Hits Hpay Hmiss Hmap data.
  unfold create_preference, create_preference_try.
  rewrite (bind_lift_normal _ _ _ Hits), (bind_lift_normal _ _ _ Hpay).
  rewrite bind_emit, Hmiss. cbn [bind ret].
  rewrite (bind_lift_normal _ _ _ Hmap), payer_block_ret. cbn [bind ret].
  fold data. rewrite bind_emit. unfold gateway_round, await.
  destruct (preference_create env data); reflexivity.
Qed.

(** The run of the handler when reading an item throws. *)
Lemma create_preference_map_throws (env : Env) (req : Request)
    (its : value) (t : thrown) :
  get_prop (body req) "items" = Normal its ->
  items_missing its = ret false ->
  call_map its product_item = Throw t ->
  create_preference env req =
    (Normal tt,
     [received_log req;
      ConsoleError "Error creating preference:" (LogThrown t);
      Respond 500 (VObj [("error", VStr "Error creating payment preference");
                         ("details", details_of t)])]).
Proof.
  intros Hits Hmiss Hmap.
  destruct (get_prop_total _ _ "payer" _ Hits) as [pay Hpay].
  unfold create_preference, create_preference_try.
  rewrite (bind_lift_normal _ _ _ Hits), (bind_lift_normal _ _ _ Hpay).
  rewrite bind_emit, Hmiss. cbn [bind ret].
  rewrite (bind_lift_throw _ _ _ Hmap). reflexivity.
Qed.

(** The run of the handler when the body itself cannot be read. *)
Lemma create_preference_no_body (env : Env) (req : Request) (t : thrown) :
  get_prop (body req) "items" = Throw t ->
  create_preference env req =
    (Normal tt,
     [ConsoleError "Error creating preference:" (LogThrown t);
      Respond 500 (VObj [("error", VStr "Error creating payment preference");
                         ("details", details_of t)])]).
Proof.
  intros Hits. unfold create_preference, create_preference_try.
  rewrite (bind_lift_throw _ _ _ Hits). reflexivity.
Qed.

(** ** Mapping the items *)

Lemma map_elems_Forall2 {A} (f : value -> completion A) (xs : list value)
    (ys : list A) :
  map_elems f xs = Normal ys <-> Forall2 (fun x y => f x = Normal y) xs ys.
Proof.
  revert ys. induction xs as [|x xs IH]; intros ys; simpl.
  - split.
    + intros H. inversion H. constructor.
    + intros H. inversion H. reflexivity.
  - split.
    + destruct (f x) as [y|t] eqn:Fx; [|discriminate].
      destruct (map_elems f xs) as [ys'|t] eqn:Rest; [|discriminate].
      intros H. inversion H; subst. constructor; [assumption|].
      apply IH. reflexivity.
    + intros H. inversion H as [|x' y xs' ys' Fx Hrest]; subst.
      rewrite Fx. apply IH in Hrest. rewrite Hrest. reflexivity.
Qed.

Lemma product_item_readable (item : value) :
  nullish item = false ->
  product_item item =
    Normal {| item_id := read item "id";
              item_title := read item "title";
              item_quantity := read item "quantity";
              item_unit_price := read item "unit_price";
              item_currency_id := or_else (read item "currency_id") (VStr "PEN") |}.
Proof.
  destruct item; simpl; intros H; try discriminate; reflexivity.
Qed.

Lemma product_item_inv (item : value) (sent : Item) :
  product_item item = Normal sent ->
  get_prop item "id" = Normal (item_id sent) /\
  get_prop item "title" = Normal (item_title sent) /\
  get_prop item "quantity" = Normal (item_quantity sent) /\
  get_prop item "unit_price" = Normal (item_unit_price sent) /\
  exists c, get_prop item "currency_id" = Normal c /\
            item_currency_id sent = or_else c (VStr "PEN").
Proof.
  unfold product_item.
  destruct (get_prop item "id") as [a|]; [|discriminate].
  destruct (get_prop item "title") as [b|]; [|discriminate].
  destruct (get_prop item "quantity") as [c|]; [|discriminate].
  destruct (get_prop item "unit_price") as [d|]; [|discriminate].
  destruct (get_prop item "currency_id") as [e|]; [|discriminate].
  intros H. inversion H; subst; simpl. repeat split. eauto.
Qed.

Lemma map_elems_readable (xs : list value) :
  Forall (fun x => nullish x = false) xs ->
  exists ys, map_elems product_item xs = Normal ys.
Proof.
  induction 1 as [|x xs Hx _ [ys IH]]; simpl.
  - eauto.
  - rewrite (product_item_readable x Hx), IH. eauto.
Qed.

(** ** Every session request the handler sends *)

Lemma in_gateway_round (env : Env) (data data' : PreferenceData) :
  In (PreferenceCreate data') (gateway_round env data) -> data' = data.
Proof.
  unfold gateway_round.
  destruct (preference_create env data); simpl;
    intros [H|[H|[H|[]]]] || intros [H|[H|[]]];
    try discriminate; inversion H; reflexivity.
Qed.

Lemma sent_request_inv (env : Env) (req : Request) (data : PreferenceData) :
  In (PreferenceCreate data) (effects (create_preference env req)) ->
  exists (l : list value) (pay : value),
    get_prop (body req) "items" = Normal (VArr l) /\
    l <> [] /\
    get_prop (body req) "payer" = Normal pay /\
    map_elems product_item l = Normal (items data) /\
    data = preferenceData env req (items data) (payer_of pay).
Proof.
  intros Hin.
  destruct (get_prop (body req) "items") as [its|t] eqn:Hits.
  2:{ rewrite (create_preference_no_body _ _ _ Hits) in Hin. simpl in Hin.
      destruct Hin as [H|[H|[]]]; discriminate. }
  destruct (items_missing_total its) as [[|] Hmiss].
  { rewrite (create_preference_rejected _ _ _ Hits Hmiss) in Hin. simpl in Hin.
    destruct Hin as [H|[H|[]]]; discriminate. }
  destruct (call_map its product_item) as [mapped|t] eqn:Hmap.
  2:{ rewrite (create_preference_map_throws _ _ _ _ Hits Hmiss Hmap) in Hin.
      simpl in Hin. destruct Hin as [H|[H|[H|[]]]]; discriminate. }
  destruct (get_prop_total _ _ "payer" _ Hits) as [pay Hpay].
  rewrite (create_preference_accepted _ _ _ _ _ Hits Hpay Hmiss Hmap) in Hin.
  simpl in Hin. destruct Hin as [H|[H|H]]; try discriminate.
  apply in_gateway_round in H. subst data. simpl.
  destruct its; simpl in Hmap; try discriminate.
  exists elems, pay. repeat split; try assumption.
  intros ->. discriminate.
Qed.

(** ** POST /api/create-preference: the claims *)




(** C2.  When [items] is a non-empty array whose elements can be read (none
    is [null] or [undefined]; every array of line-item objects is such) and
    the session-creation call the handler makes resolves to [result], the
    handler answers 200 with [id], [init_point] and [sandbox_init_point]
    read from [result], after exactly one gateway call. *)
Theorem create_preference_success (env : Env) (req : Request)
    (x : value) (xs : list value) (result : list (string * value)) :
  get_prop (body req) "items" = Normal (VArr (x :: xs)) ->
  Forall (fun item => nullish item = false) (x :: xs) ->
  (forall data, In (PreferenceCreate data) (effects (create_preference env req)) ->
                preference_create env data = Resolved result) ->
  responses (create_preference env req) =
    [Respond 200 (VObj [("id", field result "id");
                        ("init_point", field result "init_point");
                        ("sandbox_init_point", field result "sandbox_init_point")])] /\
  exists data, gateway_calls (create_preference env req) = [PreferenceCreate data].
Proof.
  intros Hits Hread Hgw.
  destruct (map_elems_readable _ Hread) as [mapped Hmap].
  destruct (get_prop_total _ _ "payer" _ Hits) as [pay Hpay].
  pose proof (create_preference_accepted env req _ _ _ Hits Hpay
                (nonempty_array_not_missing x xs) Hmap) as Hrun.
  simpl in Hrun.
  assert (Hres : preference_create env
                   (preferenceData env req mapped (payer_of pay)) = Resolved result).
  { apply Hgw. rewrite Hrun. simpl. right. right.
    unfold gateway_round. destruct (preference_create env _); left; reflexivity. }
  rewrite Hrun. unfold responses, gateway_calls, gateway_round. rewrite Hres.
  split; [reflexivity|]. eexists. reflexivity.
Qed.

Lemma create_preference_success_witness :
  responses (create_preference Sample.env Sample.cart) =
    [Respond 200 (VObj [("id", VStr "pref-1");
                        ("init_point", VStr "https://gateway.example/init");
                        ("sandbox_init_point",
                           VStr "https://sandbox.gateway.example/init")])].
Proof.
  apply (create_preference_success Sample.env Sample.cart
           Sample.laptop [Sample.mouse] Sample.session).
  - reflexivity.
  - repeat constructor.
  - intros data _. reflexivity.
Defined.

(** C3.  In every session request the handler sends, the items correspond
    one to one, in order, to the elements of the request's [items]; an
    element whose [currency_id] is absent or the empty string is sent with
    [currency_id] ['PEN'], and one whose [currency_id] is a non-empty string
    is sent with that string. *)
Theorem currency_fallback (env : Env) (req : Request) (data : PreferenceData) :
  In (PreferenceCreate data) (effects (create_preference env req)) ->
  exists l,
    get_prop (body req) "items" = Normal (VArr l) /\
    Forall2
      (fun item sent =>
         exists c,
           get_prop item "currency_id" = Normal c /\
           (c = VUndefined \/ c = VStr "" -> item_currency_id sent = VStr "PEN") /\
           (forall s, c = VStr s -> s <> "" -> item_currency_id sent = VStr s))
      l (items data).
Proof.
  intros Hin.
  destruct (sent_request_inv _ _ _ Hin) as (l & pay & Hits & _ & _ & Hmap & _).
  exists l. split; [assumption|].
  apply map_elems_Forall2 in Hmap.
  eapply Forall2_impl; [|exact Hmap].
  intros item sent Hitem. cbv beta in Hitem.
  destruct (product_item_inv _ _ Hitem) as (_ & _ & _ & _ & c & Hc & Hsent).
  exists c. split; [assumption|]. rewrite Hsent. split.
  - intros [-> | ->]; reflexivity.
  - intros s -> Hs. unfold or_else. simpl.
    destruct (String.eqb_spec s ""); [contradiction|reflexivity].
Qed.

Lemma currency_fallback_witness :
  exists l,
    get_prop (body Sample.cart) "items" = Normal (VArr l) /\
    Forall2
      (fun item sent =>
         exists c,
           get_prop item "currency_id" = Normal c /\
           (c = VUndefined \/ c = VStr "" -> item_currency_id sent = VStr "PEN") /\
           (forall s, c = VStr s -> s <> "" -> item_currency_id sent = VStr s))
      l Sample.sent_items.
Proof.
  apply (currency_fallback Sample.env Sample.cart Sample.sent).
  simpl. right. right. left. reflexivity.
Defined.

(** C4.  Every session request the handler sends has no excluded payment
    methods or types and 12 installments; its three redirect URLs are the
    configured frontend origin followed by [/success], [/failure] and
    [/pending]; [auto_return] is ['approved']; the statement descriptor is
    ['MI_ECOMMERCE']; the notification URL is the request's protocol, [://],
    its host and [/api/webhook]; the external reference is [order_] followed
    by the decimal digits of the current time in milliseconds. *)
Theorem session_request_contents (env : Env) (req : Request)
    (data : PreferenceData) (origin h : string) :
  FRONTEND_URL env = Some origin ->
  host req = Some h ->
  In (PreferenceCreate data) (effects (create_preference env req)) ->
  excluded_payment_methods (payment_methods data) = [] /\
  excluded_payment_types (payment_methods data) = [] /\
  installments (payment_methods data) = 12%Z /\
  success (back_urls data) = origin ++ "/success" /\
  failure (back_urls data) = origin ++ "/failure" /\
  pending (back_urls data) = origin ++ "/pending" /\
  auto_return data = "approved" /\
  statement_descriptor data = "MI_ECOMMERCE" /\
  notification_url data = protocol req ++ "://" ++ h ++ "/api/webhook" /\
  external_reference data = "order_" ++ template_of_integer (now env).
Proof.
  intros Horigin Hhost Hin.
  destruct (sent_request_inv _ _ _ Hin) as (l & pay & _ & _ & _ & _ & ->).
  simpl. rewrite Horigin, Hhost. simpl. repeat split.
Qed.

Lemma session_request_contents_witness :
  success (back_urls Sample.sent) = "https://shop.example/success" /\
  failure (back_urls Sample.sent) = "https://shop.example/failure" /\
  pending (back_urls Sample.sent) = "https://shop.example/pending" /\
  notification_url Sample.sent = "https://api.shop.example/api/webhook" /\
  external_reference Sample.sent = "order_1700000000000".
Proof.
  destruct (session_request_contents Sample.env Sample.cart Sample.sent
              "https://shop.example" "api.shop.example" eq_refl eq_refl)
    as (_ & _ & _ & Hs & Hf & Hp & _ & _ & Hn & He).
  - simpl. right. right. left. reflexivity.
  - repeat split; assumption.
Defined.

(** Without a configured [FRONTEND_URL] the template literal interpolates the
    text [undefined]. *)
Remark back_urls_unconfigured (env : Env) (req : Request)
    (its : list Item) (pay : option PayerBlock) :
  FRONTEND_URL env = None ->
  success (back_urls (preferenceData env req its pay)) = "undefined/success".
Proof. intros H. simpl. rewrite H. reflexivity. Qed.

(** C10.  In every session request the handler sends, each item carries the
    [id], [title], [quantity] and [unit_price] read from the corresponding
    element of the request's [items], in order; and the item sent depends on
    nothing but the five properties read, so any other property of the
    element is dropped. *)
Theorem items_forwarded (env : Env) (req : Request) (data : PreferenceData) :
  In (PreferenceCreate data) (effects (create_preference env req)) ->
  (exists l,
     get_prop (body req) "items" = Normal (VArr l) /\
     Forall2
       (fun item sent =>
          get_prop item "id" = Normal (item_id sent) /\
          get_prop item "title" = Normal (item_title sent) /\
          get_prop item "quantity" = Normal (item_quantity sent) /\
          get_prop item "unit_price" = Normal (item_unit_price sent))
       l (items data)) /\
  (forall item item',
     (forall k, In k ["id"; "title"; "quantity"; "unit_price"; "currency_id"] ->
                get_prop item k = get_prop item' k) ->
     product_item item = product_item item').
Proof.
  intros Hin. split.
  - destruct (sent_request_inv _ _ _ Hin) as (l & pay & Hits & _ & _ & Hmap & _).
    exists l. split; [assumption|].
    apply map_elems_Forall2 in Hmap.
    eapply Forall2_impl; [|exact Hmap].
    intros item sent Hitem. cbv beta in Hitem.
    destruct (product_item_inv _ _ Hitem) as (Ha & Hb & Hc & Hd & _).
    repeat split; assumption.
  - intros item item' Hsame. unfold product_item.
    rewrite (Hsame "id"), (Hsame "title"), (Hsame "quantity"),
      (Hsame "unit_price"), (Hsame "currency_id");
      simpl; auto 10.
Qed.

Lemma items_forwarded_witness :
  exists l,
    get_prop (body Sample.cart) "items" = Normal (VArr l) /\
    Forall2
      (fun item sent =>
         get_prop item "id" = Normal (item_id sent) /\
         get_prop item "title" = Normal (item_title sent) /\
         get_prop item "quantity" = Normal (item_quantity sent) /\
         get_prop item "unit_price" = Normal (item_unit_price sent))
      l Sample.sent_items.
Proof.
  apply (items_forwarded Sample.env Sample.cart Sample.sent).
  simpl. right. right. left. reflexivity.
Defined.

(** ** POST /api/webhook: the runs *)

Lemma strict_eq_payment (ty : value) :
  ty <> VStr "payment" -> strict_eq ty (VStr "payment") = false.
Proof.
  intros Hne. destruct ty; simpl; try reflexivity.
  destruct (String.eqb_spec s "payment"); [subst; contradiction|reflexivity].
Qed.

(** The switch only writes to the console, at most once, and never throws. *)
Lemma status_switch_logs (status paymentId : value) :
  exists logs,
    status_switch status paymentId = (Normal tt, logs) /\
    Forall (fun e => is_console e = true) logs.
Proof.
  unfold status_switch.
  destruct (strict_eq status (VStr "approved"));
    [|destruct (strict_eq status (VStr "pending"));
      [|destruct (strict_eq status (VStr "rejected"))]];
    eexists; (split; [reflexivity|repeat constructor]).
Qed.

Lemma filter_console_free (p : event -> bool) (logs : list event) :
  (forall e, is_console e = true -> p e = false) ->
  Forall (fun e => is_console e = true) logs ->
  filter p logs = [].
Proof.
  intros Hp. induction 1 as [|e logs He _ IH]; simpl.
  - reflexivity.
  - rewrite (Hp e He). exact IH.
Qed.

Lemma webhook_no_body (env : Env) (req : Request) (t : thrown) :
  get_prop (body req) "type" = Throw t ->
  webhook_try env req = (Throw t, []) /\
  webhook env req =
    (Normal tt, [ConsoleError "Webhook error:" (LogThrown t);
                 Respond 500 webhook_failed]).
Proof.
  intros Hty. unfold webhook, webhook_try.
  rewrite (bind_lift_throw _ _ _ Hty). split; reflexivity.
Qed.

Lemma webhook_other_type (env : Env) (req : Request) (ty data : value) :
  get_prop (body req) "type" = Normal ty ->
  get_prop (body req) "data" = Normal data ->
  strict_eq ty (VStr "payment") = false ->
  webhook env req = (Normal tt, [webhook_log ty data; Respond 200 received_true]).
Proof.
  intros Hty Hdata Hne. unfold webhook, webhook_try.
  rewrite (bind_lift_normal _ _ _ Hty), (bind_lift_normal _ _ _ Hdata).
  rewrite bind_emit, Hne. reflexivity.
Qed.

Lemma webhook_no_data (env : Env) (req : Request) (ty data : value) (t : thrown) :
  get_prop (body req) "type" = Normal ty ->
  get_prop (body req) "data" = Normal data ->
  strict_eq ty (VStr "payment") = true ->
  get_prop data "id" = Throw t ->
  webhook_try env req = (Throw t, [webhook_log ty data]) /\
  webhook env req =
    (Normal tt, [webhook_log ty data;
                 ConsoleError "Webhook error:" (LogThrown t);
                 Respond 500 webhook_failed]).
Proof.
  intros Hty Hdata Heq Hid. unfold webhook, webhook_try.
  rewrite (bind_lift_normal _ _ _ Hty), (bind_lift_normal _ _ _ Hdata).
  rewrite bind_emit, Heq, (bind_lift_throw _ _ _ Hid). split; reflexivity.
Qed.

Lemma webhook_lookup_rejected (env : Env) (req : Request)
    (ty data id : value) (t : thrown) :
  get_prop (body req) "type" = Normal ty ->
  get_prop (body req) "data" = Normal data ->
  strict_eq ty (VStr "payment") = true ->
  get_prop data "id" = Normal id ->
  payment_get env id = Rejected t ->
  webhook_try env req = (Throw t, [webhook_log ty data; PaymentGet id]) /\
  webhook env req =
    (Normal tt, [webhook_log ty data; PaymentGet id;
                 ConsoleError "Webhook error:" (LogThrown t);
                 Respond 500 webhook_failed]).
Proof.
  intros Hty Hdata Heq Hid Hget. unfold webhook, webhook_try.
  rewrite (bind_lift_normal _ _ _ Hty), (bind_lift_normal _ _ _ Hdata).
  rewrite bind_emit, Heq, (bind_lift_normal _ _ _ Hid).
  unfold await. rewrite Hget. split; reflexivity.
Qed.

Lemma webhook_lookup_resolved (env : Env) (req : Request)
    (ty data id : value) (info : list (string * value)) :
  get_prop (body req) "type" = Normal ty ->
  get_prop (body req) "data" = Normal data ->
  strict_eq ty (VStr "payment") = true ->
  get_prop data "id" = Normal id ->
  payment_get env id = Resolved info ->
  webhook env req =
    (Normal tt,
     ([webhook_log ty data; PaymentGet id; payment_info_log info]
        ++ effects (status_switch (field info "status") id)
        ++ [Respond 200 received_true])%list).
Proof.
  intros Hty Hdata Heq Hid Hget. unfold webhook, webhook_try.
  rewrite (bind_lift_normal _ _ _ Hty), (bind_lift_normal _ _ _ Hdata).
  rewrite bind_emit, Heq, (bind_lift_normal _ _ _ Hid).
  unfold await. rewrite Hget.
  destruct (status_switch_logs (field info "status") id) as (logs & Hsw & _).
  cbn [bind emit ret]. rewrite Hsw. reflexivity.
Qed.

(** The [try] block of the webhook handler sends nothing when it throws. *)
Lemma webhook_try_throw_silent (env : Env) (req : Request) (t : thrown) :
  outcome (webhook_try env req) = Throw t ->
  filter is_response (effects (webhook_try env req)) = [].
Proof.
  intros Hthrow.
  destruct (get_prop (body req) "type") as [ty|t0] eqn:Hty.
  2:{ destruct (webhook_no_body env req _ Hty) as [-> _]. reflexivity. }
  destruct (get_prop_total _ _ "data" _ Hty) as [data Hdata].
  destruct (strict_eq ty (VStr "payment")) eqn:Heq.
  2:{ exfalso. revert Hthrow. unfold webhook_try.
      rewrite (bind_lift_normal _ _ _ Hty), (bind_lift_normal _ _ _ Hdata).
      rewrite bind_emit, Heq. discriminate. }
  destruct (get_prop data "id") as [id|t0] eqn:Hid.
  2:{ destruct (webhook_no_data env req _ _ _ Hty Hdata Heq Hid) as [-> _].
      reflexivity. }
  destruct (payment_get env id) as [info|t0] eqn:Hget.
  2:{ destruct (webhook_lookup_rejected env req _ _ _ _ Hty Hdata Heq Hid Hget)
        as [-> _]. reflexivity. }
  exfalso. revert Hthrow. unfold webhook_try.
  rewrite (bind_lift_normal _ _ _ Hty), (bind_lift_normal _ _ _ Hdata).
  rewrite bind_emit, Heq, (bind_lift_normal _ _ _ Hid).
  unfold await. rewrite Hget.
  destruct (status_switch_logs (field info "status") id) as (logs & Hsw & _).
  cbn [bind emit ret]. rewrite Hsw. discriminate.
Qed.

Lemma try_catch_throw {A} (m : M A) (h : thrown -> M A) (t : thrown) :
  outcome m = Throw t ->
  try_catch m h = (outcome (h t), (effects m ++ effects (h t))%list).
Proof.
  destruct m as [[a|t'] tr]; simpl; intros H; [discriminate|].
  inversion H; subst. unfold try_catch, outcome, effects.
  destruct (h t). reflexivity.
Qed.

Lemma try_catch_normal {A} (m : M A) (h : thrown -> M A) (a : A) :
  outcome m = Normal a -> try_catch m h = m.
Proof.
  destruct m as [[a'|t'] tr]; simpl; intros H; [reflexivity|discriminate].
Qed.

(** ** POST /api/webhook: the claims *)

(** C5.  For an event of type ['payment'] whose payment lookup resolves, the
    handler answers 200 with [{received: true}], whatever the payment record
    says: apart from console output the handler makes the lookup and sends
    that response, and the only effects that depend on the status are
    console lines. *)
Theorem webhook_payment_acknowledged (env : Env) (req : Request)
    (data id : value) (info : list (string * value)) :
  get_prop (body req) "type" = Normal (VStr "payment") ->
  get_prop (body req) "data" = Normal data ->
  get_prop data "id" = Normal id ->
  payment_get env id = Resolved info ->
  responses (webhook env req) = [Respond 200 (VObj [("received", VBool true)])] /\
  observable (webhook env req) =
    [PaymentGet id; Respond 200 (VObj [("received", VBool true)])] /\
  exists logs,
    Forall (fun e => is_console e = true) logs /\
    effects (webhook env req) =
      ([webhook_log (VStr "payment") data; PaymentGet id; payment_info_log info]
         ++ logs ++ [Respond 200 (VObj [("received", VBool true)])])%list.
Proof.
  intros Hty Hdata Hid Hget.
  rewrite (webhook_lookup_resolved env req _ _ _ _ Hty Hdata eq_refl Hid Hget).
  destruct (status_switch_logs (field info "status") id) as (logs & Hsw & Hlogs).
  rewrite Hsw. unfold responses, observable, effects, snd.
  cbn [app filter is_response is_console negb webhook_log payment_info_log].
  rewrite !filter_app.
  rewrite (filter_console_free is_response logs), (filter_console_free _ logs);
    try assumption.
  - repeat split. exists logs. split; [assumption|reflexivity].
  - intros e He. rewrite He. reflexivity.
  - intros [] He; try discriminate; reflexivity.
Qed.

Lemma webhook_payment_acknowledged_witness :
  responses (webhook Sample.env Sample.payment_event) =
    [Respond 200 (VObj [("received", VBool true)])].
Proof.
  apply (webhook_payment_acknowledged Sample.env Sample.payment_event
           (VObj [("id", VStr "123")]) (VStr "123")
           (Sample.payment_record "approved"));
    reflexivity.
Defined.

(** C6.  For an event whose [type] is anything but ['payment'] the handler
    answers 200 with [{received: true}] and makes no gateway call. *)
Theorem webhook_other_type_ignored (env : Env) (req : Request) (ty : value) :
  get_prop (body req) "type" = Normal ty ->
  ty <> VStr "payment" ->
  responses (webhook env req) = [Respond 200 (VObj [("received", VBool true)])] /\
  gateway_calls (webhook env req) = [].
Proof.
  intros Hty Hne.
  destruct (get_prop_total _ _ "data" _ Hty) as [data Hdata].
  rewrite (webhook_other_type env req _ _ Hty Hdata (strict_eq_payment _ Hne)).
  split; reflexivity.
Qed.

Lemma webhook_other_type_ignored_witness :
  responses (webhook Sample.env Sample.other_event) =
    [Respond 200 (VObj [("received", VBool true)])] /\
  gateway_calls (webhook Sample.env Sample.other_event) = [].
Proof.
  apply (webhook_other_type_ignored Sample.env Sample.other_event
           (VStr "merchant_order")).
  - reflexivity.
  - discriminate.
Defined.

(** C9.  The webhook handler never completes abruptly.  Whenever its [try]
    block throws, the one response is 500 with exactly
    [{error: 'Webhook processing failed'}], which holds nothing of the error.
    The block throws when the lookup of a ['payment'] event rejects, and
    when a ['payment'] event has no [data]. *)
Theorem webhook_failure_generic (env : Env) (req : Request) :
  outcome (webhook env req) = Normal tt /\
  (forall t, outcome (webhook_try env req) = Throw t ->
     responses (webhook env req) =
       [Respond 500 (VObj [("error", VStr "Webhook processing failed")])]) /\
  (forall data id t,
     get_prop (body req) "type" = Normal (VStr "payment") ->
     get_prop (body req) "data" = Normal data ->
     get_prop data "id" = Normal id ->
     payment_get env id = Rejected t ->
     outcome (webhook_try env req) = Throw t) /\
  (forall data,
     get_prop (body req) "type" = Normal (VStr "payment") ->
     get_prop (body req) "data" = Normal data ->
     nullish data = true ->
     exists t, outcome (webhook_try env req) = Throw t).
Proof.
  split; [|split; [|split]].
  - destruct (outcome (webhook_try env req)) as [[]|t] eqn:Hout.
    + rewrite (try_catch_normal _ _ _ Hout : webhook env req = _). exact Hout.
    + unfold webhook. rewrite (try_catch_throw _ _ _ Hout). reflexivity.
  - intros t Hout. unfold responses, webhook.
    rewrite (try_catch_throw _ _ _ Hout). unfold effects at 1. cbn [snd].
    rewrite filter_app, (webhook_try_throw_silent _ _ _ Hout). reflexivity.
  - intros data id t Hty Hdata Hid Hget.
    destruct (webhook_lookup_rejected env req _ _ _ _ Hty Hdata eq_refl Hid Hget)
      as [-> _]. reflexivity.
  - intros data Hty Hdata Hnull.
    destruct (get_prop data "id") as [id|t] eqn:Hid.
    + destruct data; simpl in Hnull, Hid; discriminate.
    + exists t.
      destruct (webhook_no_data env req _ _ _ Hty Hdata eq_refl Hid) as [-> _].
      reflexivity.
Qed.

Lemma webhook_failure_generic_witness :
  responses (webhook Sample.env_timeout Sample.payment_event) =
    [Respond 500 (VObj [("error", VStr "Webhook processing failed")])] /\
  responses (webhook Sample.env Sample.payment_event_no_data) =
    [Respond 500 (VObj [("error", VStr "Webhook processing failed")])].
Proof.
  split.
  - destruct (webhook_failure_generic Sample.env_timeout Sample.payment_event)
      as (_ & Hgeneric & Hlookup & _).
    apply (Hgeneric (ErrorInstance "The operation was aborted.")).
    apply (Hlookup (VObj [("id", VStr "123")]) (VStr "123")); reflexivity.
  - destruct (webhook_failure_generic Sample.env Sample.payment_event_no_data)
      as (_ & Hgeneric & _ & Hdata).
    destruct (Hdata VUndefined eq_refl eq_refl eq_refl) as [t Ht].
    apply (Hgeneric t Ht).
Defined.

(** ** GET /api/payment/:id *)

Lemma get_payment_resolved (env : Env) (req : Request)
    (info : list (string * value)) :
  payment_get env (VStr (params_id req)) = Resolved info ->
  get_payment env req =
    (Normal tt, [PaymentGet (VStr (params_id req));
                 Respond 200 (payment_projection info)]).
Proof.
  intros Hget. unfold get_payment, get_payment_try, await.
  rewrite Hget. reflexivity.
Qed.

Lemma get_payment_rejected (env : Env) (req : Request) (t : thrown) :
  payment_get env (VStr (params_id req)) = Rejected t ->
  get_payment env req =
    (Normal tt,
     [PaymentGet (VStr (params_id req));
      ConsoleError "Error getting payment info:" (LogThrown t);
      Respond 500 (VObj [("error", VStr "Error getting payment information");
                         ("details", details_of t)])]).
Proof.
  intros Hget. unfold get_payment, get_payment_try, await.
  rewrite Hget. reflexivity.
Qed.

(** C7.  When the lookup resolves, the handler answers with an object of
    exactly the eight properties [id], [status], [status_detail],
    [transaction_amount], [currency_id], [payment_method_id],
    [external_reference] and [date_created], each the gateway record's own;
    when the lookup rejects, it answers 500 with an object holding [error]
    and [details]. *)
Theorem payment_lookup (env : Env) (req : Request) :
  (forall info,
     payment_get env (VStr (params_id req)) = Resolved info ->
     responses (get_payment env req) =
       [Respond 200
          (VObj [("id", field info "id");
                 ("status", field info "status");
                 ("status_detail", field info "status_detail");
                 ("transaction_amount", field info "transaction_amount");
                 ("currency_id", field info "currency_id");
                 ("payment_method_id", field info "payment_method_id");
                 ("external_reference", field info "external_reference");
                 ("date_created", field info "date_created")])]) /\
  (forall t,
     payment_get env (VStr (params_id req)) = Rejected t ->
     exists details,
       responses (get_payment env req) =
         [Respond 500 (VObj [("error", VStr "Error getting payment information");
                             ("details", details)])]).
Proof.
  split.
  - intros info Hget. rewrite (get_payment_resolved _ _ _ Hget). reflexivity.
  - intros t Hget. rewrite (get_payment_rejected _ _ _ Hget).
    exists (details_of t). reflexivity.
Qed.

Lemma payment_lookup_witness :
  responses (get_payment Sample.env (Sample.request VUndefined)) =
    [Respond 200
       (VObj [("id", VNum Sample.two);
              ("status", VStr "approved");
              ("status_detail", VStr "accredited");
              ("transaction_amount", VNum Sample.price);
              ("currency_id", VStr "PEN");
              ("payment_method_id", VStr "visa");
              ("external_reference", VStr "order_1700000000000");
              ("date_created", VStr "2023-11-14T22:13:20.000Z")])].
Proof.
  apply (proj1 (payment_lookup Sample.env (Sample.request VUndefined))
           (Sample.payment_record "approved")).
  reflexivity.
Defined.

(** ** Gateway failures and [details] *)

(** C8, as worded: a rejection that carries a message has it forwarded.  The
    gateway rejects a lookup with a plain object whose [message] is
    ["invalid access token"]; the handler answers with [details] equal to
    ['Unknown error'], not to that message. *)
Lemma details_forwarding_counterexample :
  payment_get Sample.env_api_error (VStr "123") = Rejected Sample.api_error /\
  carried_message Sample.api_error = Some (VStr "invalid access token") /\
  responses (get_payment Sample.env_api_error (Sample.request VUndefined)) =
    [Respond 500 (VObj [("error", VStr "Error getting payment information");
                        ("details", VStr "Unknown error")])] /\
  responses (get_payment Sample.env_api_error (Sample.request VUndefined)) <>
    [Respond 500 (VObj [("error", VStr "Error getting payment information");
                        ("details", forwarded_details Sample.api_error)])].
Proof.
  repeat split. discriminate.
Qed.

(** C8, amended.  When the gateway call of either handler rejects, the
    handler answers 500 and [details] is the rejection's [message] if the
    rejection is an [Error], and ['Unknown error'] if it is anything else. *)
Theorem gateway_failure_details (env : Env) (req : Request) (t : thrown) :
  (payment_get env (VStr (params_id req)) = Rejected t ->
   responses (get_payment env req) =
     [Respond 500
        (VObj [("error", VStr "Error getting payment information");
               ("details", match t with
                           | ErrorInstance message => VStr message
                           | Thrown _ => VStr "Unknown error"
                           end)])]) /\
  (forall data,
     In (PreferenceCreate data) (effects (create_preference env req)) ->
     preference_create env data = Rejected t ->
     responses (create_preference env req) =
       [Respond 500
          (VObj [("error", VStr "Error creating payment preference");
                 ("details", match t with
                             | ErrorInstance message => VStr message
                             | Thrown _ => VStr "Unknown error"
                             end)])]).
Proof.
  split.
  - intros Hget. rewrite (get_payment_rejected _ _ _ Hget). reflexivity.
  - intros data Hin Hrej.
    destruct (sent_request_inv _ _ _ Hin)
      as (l & pay & Hits & Hne & Hpay & Hmap & Hdata).
    destruct l as [|x xs]; [contradiction|].
    pose proof (create_preference_accepted env req _ _ _ Hits Hpay
                  (nonempty_array_not_missing x xs) Hmap) as Hrun.
    simpl in Hrun. rewrite <- Hdata in Hrun. rewrite Hrun.
    unfold responses, gateway_round. rewrite Hrej. reflexivity.
Qed.

Lemma gateway_failure_details_witness :
  responses (get_payment Sample.env_timeout (Sample.request VUndefined)) =
    [Respond 500 (VObj [("error", VStr "Error getting payment information");
                        ("details", VStr "The operation was aborted.")])] /\
  responses (create_preference Sample.env_api_error Sample.cart) =
    [Respond 500 (VObj [("error", VStr "Error creating payment preference");
                        ("details", VStr "Unknown error")])].
Proof.
  split.
  - apply (proj1 (gateway_failure_details Sample.env_timeout
                    (Sample.request VUndefined)
                    (ErrorInstance "The operation was aborted."))).
    reflexivity.
  - apply (proj2 (gateway_failure_details Sample.env_api_error Sample.cart
                    Sample.api_error)
             (preferenceData Sample.env_api_error Sample.cart
                Sample.sent_items None)).
    + simpl. right. right. left. reflexivity.
    + reflexivity.
Defined.

(** ** Runs on sample inputs *)

(** The three logging branches differ in their console line only. *)
Example webhook_approved_run :
  effects (webhook Sample.env Sample.payment_event) =
    [webhook_log (VStr "payment") (VObj [("id", VStr "123")]);
     PaymentGet (VStr "123");
     payment_info_log (Sample.payment_record "approved");
     ConsoleLog "Pago aprobado:" (LogValue (VStr "123"));
     Respond 200 received_true].
Proof. reflexivity. Qed.

(** An [items] that is truthy but not an array passes the validation and
    fails at [items.map]; the handler answers 500. *)
Example create_preference_items_not_array :
  responses (create_preference Sample.env
               (Sample.request (VObj [("items", VStr "laptop")]))) =
    [Respond 500 (VObj [("error", VStr "Error creating payment preference");
                        ("details", VStr "items.map is not a function")])].
Proof. reflexivity. Qed.

(** A request without a parsed body fails at the destructuring. *)
Example create_preference_without_body :
  exists details,
    responses (create_preference Sample.env (Sample.request VUndefined)) =
      [Respond 500 (VObj [("error", VStr "Error creating payment preference");
                          ("details", details)])].
Proof. eexists. reflexivity. Qed.

(** ** The runs of the create-preference handler, exhaustively *)

Lemma create_preference_cases (env : Env) (req : Request) :
  (exists t,
     get_prop (body req) "items" = Throw t /\
     create_preference env req =
       (Normal tt,
        [ConsoleError "Error creating preference:" (LogThrown t);
         Respond 500 (VObj [("error", VStr "Error creating payment preference");
                            ("details", details_of t)])])) \/
  (exists its,
     get_prop (body req) "items" = Normal its /\
     items_missing its = ret true /\
     create_preference env req =
       (Normal tt,
        [received_log req;
         Respond 400 (VObj [("error", VStr "Items are required")])])) \/
  (exists its t,
     get_prop (body req) "items" = Normal its /\
     items_missing its = ret false /\
     call_map its product_item = Throw t /\
     create_preference env req =
       (Normal tt,
        [received_log req;
         ConsoleError "Error creating preference:" (LogThrown t);
         Respond 500 (VObj [("error", VStr "Error creating payment preference");
                            ("details", details_of t)])])) \/
  (exists its pay mapped,
     get_prop (body req) "items" = Normal its /\
     get_prop (body req) "payer" = Normal pay /\
     items_missing its = ret false /\
     call_map its product_item = Normal mapped /\
     create_preference env req =
       (Normal tt,
        received_log req
          :: ConsoleLog "PreferenceData final:"
               (LogPreference (preferenceData env req mapped (payer_of pay)))
          :: gateway_round env (preferenceData env req mapped (payer_of pay)))).
Proof.
  destruct (get_prop (body req) "items") as [its|t] eqn:Hits.
  2:{ left. exists t. split; [reflexivity|].
      apply create_preference_no_body. assumption. }
  right. destruct (items_missing_total its) as [[|] Hmiss].
  { left. exists its. repeat split; try assumption.
    apply (create_preference_rejected _ _ _ Hits Hmiss). }
  right. destruct (call_map its product_item) as [mapped|t] eqn:Hmap.
  - right. destruct (get_prop_total _ _ "payer" _ Hits) as [pay Hpay].
    exists its, pay, mapped. repeat split; try assumption.
    apply (create_preference_accepted _ _ _ _ _ Hits Hpay Hmiss Hmap).
  - left. exists its, t. repeat split; try assumption.
    apply (create_preference_map_throws _ _ _ _ Hits Hmiss Hmap).
Qed.

Lemma gateway_round_shape (env : Env) (data : PreferenceData) :
  (exists result,
     preference_create env data = Resolved result /\
     gateway_round env data =
       [PreferenceCreate data;
        Respond 200 (VObj [("id", field result "id");
                           ("init_point", field result "init_point");
                           ("sandbox_init_point",
                              field result "sandbox_init_point")])]) \/
  (exists t,
     preference_create env data = Rejected t /\
     gateway_round env data =
       [PreferenceCreate data;
        ConsoleError "Error creating preference:" (LogThrown t);
        Respond 500 (VObj [("error", VStr "Error creating payment preference");
                           ("details", details_of t)])]).
Proof.
  unfold gateway_round. destruct (preference_create env data) as [result|t].
  - left. exists result. split; reflexivity.
  - right. exists t. split; reflexivity.
Qed.

(** ** One response per request *)

(** X1.  Whatever the request and whatever the gateway does, the
    create-preference handler completes normally, sends exactly one
    response, as its last effect, and the status is 200, 400 or 500. *)
Theorem create_preference_answers_once (env : Env) (req : Request) :
  answers_once [200; 400; 500]%Z (create_preference env req).
Proof.
  unfold answers_once.
  destruct (create_preference_cases env req)
    as [(t & _ & ->) | [(its & _ & _ & ->) | [(its & t & _ & _ & _ & ->)
       | (its & pay & mapped & _ & _ & _ & _ & ->)]]].
  - split; [reflexivity|].
    exists [ConsoleError "Error creating preference:" (LogThrown t)], 500%Z.
    eexists. simpl. repeat split; auto.
  - split; [reflexivity|].
    exists [received_log req], 400%Z. eexists. simpl. repeat split; auto.
  - split; [reflexivity|].
    exists [received_log req;
            ConsoleError "Error creating preference:" (LogThrown t)], 500%Z.
    eexists. simpl. repeat split; auto.
  - split; [reflexivity|].
    destruct (gateway_round_shape env (preferenceData env req mapped (payer_of pay)))
      as [(result & _ & ->) | (t & _ & ->)].
    + eexists [_; _; _], 200%Z. eexists. simpl. repeat split; auto.
    + eexists [_; _; _; _], 500%Z. eexists. simpl. repeat split; auto.
Qed.

(** X2.  The payment-lookup handler completes normally for every request,
    makes exactly one gateway call, the lookup of the path parameter as a
    string, and then sends exactly one response, 200 or 500. *)
Theorem get_payment_answers_once (env : Env) (req : Request) :
  answers_once [200; 500]%Z (get_payment env req) /\
  gateway_calls (get_payment env req) = [PaymentGet (VStr (params_id req))].
Proof.
  unfold answers_once.
  destruct (payment_get env (VStr (params_id req))) as [info|t] eqn:Hget.
  - rewrite (get_payment_resolved _ _ _ Hget). repeat split.
    eexists [_], 200%Z. eexists. simpl. repeat split; auto.
  - rewrite (get_payment_rejected _ _ _ Hget). repeat split.
    eexists [_; _], 500%Z. eexists. simpl. repeat split; auto.
Qed.

(** ** The runs of the webhook handler, exhaustively *)

Lemma get_prop_throw_iff (v : value) (k : string) :
  (exists t, get_prop v k = Throw t) <-> nullish v = true.
Proof.
  destruct v; simpl; split; intros H; try reflexivity; try discriminate;
    try (destruct H; discriminate); eexists; reflexivity.
Qed.

Lemma get_prop_read (v : value) (k : string) (x : value) :
  get_prop v k = Normal x -> read v k = x.
Proof. unfold read. intros ->. reflexivity. Qed.

Lemma readable_get_prop (v : value) (k : string) :
  nullish v = false -> get_prop v k = Normal (read v k).
Proof.
  destruct v; simpl; intros H; try discriminate; reflexivity.
Qed.

Lemma strict_eq_payment_iff (ty : value) :
  strict_eq ty (VStr "payment") = true <-> ty = VStr "payment".
Proof.
  split.
  - destruct ty; simpl; try discriminate.
    intros H. apply String.eqb_eq in H. subst. reflexivity.
  - intros ->. reflexivity.
Qed.

Lemma webhook_cases (env : Env) (req : Request) :
  (exists t,
     get_prop (body req) "type" = Throw t /\
     webhook env req =
       (Normal tt, [ConsoleError "Webhook error:" (LogThrown t);
                    Respond 500 webhook_failed])) \/
  (exists ty data,
     get_prop (body req) "type" = Normal ty /\
     get_prop (body req) "data" = Normal data /\
     strict_eq ty (VStr "payment") = false /\
     webhook env req =
       (Normal tt, [webhook_log ty data; Respond 200 received_true])) \/
  (exists ty data t,
     get_prop (body req) "type" = Normal ty /\
     get_prop (body req) "data" = Normal data /\
     strict_eq ty (VStr "payment") = true /\
     get_prop data "id" = Throw t /\
     webhook env req =
       (Normal tt, [webhook_log ty data;
                    ConsoleError "Webhook error:" (LogThrown t);
                    Respond 500 webhook_failed])) \/
  (exists ty data id t,
     get_prop (body req) "type" = Normal ty /\
     get_prop (body req) "data" = Normal data /\
     strict_eq ty (VStr "payment") = true /\
     get_prop data "id" = Normal id /\
     payment_get env id = Rejected t /\
     webhook env req =
       (Normal tt, [webhook_log ty data; PaymentGet id;
                    ConsoleError "Webhook error:" (LogThrown t);
                    Respond 500 webhook_failed])) \/
  (exists ty data id info logs,
     get_prop (body req) "type" = Normal ty /\
     get_prop (body req) "data" = Normal data /\
     strict_eq ty (VStr "payment") = true /\
     get_prop data "id" = Normal id /\
     payment_get env id = Resolved info /\
     Forall (fun e => is_console e = true) logs /\
     webhook env req =
       (Normal tt,
        ([webhook_log ty data; PaymentGet id; payment_info_log info]
           ++ logs ++ [Respond 200 received_true])%list)).
Proof.
  destruct (get_prop (body req) "type") as [ty|t] eqn:Hty.
  2:{ left. exists t. split; [reflexivity|].
      apply (webhook_no_body env req t Hty). }
  right. destruct (get_prop_total _ _ "data" _ Hty) as [data Hdata].
  destruct (strict_eq ty (VStr "payment")) eqn:Heq.
  2:{ left. exists ty, data. repeat split; try assumption.
      apply (webhook_other_type env req _ _ Hty Hdata Heq). }
  right. destruct (get_prop data "id") as [id|t] eqn:Hid.
  2:{ left. exists ty, data, t. repeat split; try assumption.
      apply (webhook_no_data env req _ _ _ Hty Hdata Heq Hid). }
  right. destruct (payment_get env id) as [info|t] eqn:Hget.
  2:{ left. exists ty, data, id, t. repeat split; try assumption.
      apply (webhook_lookup_rejected env req _ _ _ _ Hty Hdata Heq Hid Hget). }
  right. destruct (status_switch_logs (field info "status") id)
    as (logs & Hsw & Hlogs).
  exists ty, data, id, info, logs. repeat split; try assumption.
  rewrite (webhook_lookup_resolved env req _ _ _ _ Hty Hdata Heq Hid Hget).
  rewrite Hsw. reflexivity.
Qed.

(** X3.  For every request the webhook handler sends exactly one response,
    as its last effect; the response is 200 [{received: true}] or 500
    [{error: 'Webhook processing failed'}] and nothing else; and the handler
    makes at most one gateway call, a payment lookup. *)
Theorem webhook_answers_once (env : Env) (req : Request) :
  answers_once [200; 500]%Z (webhook env req) /\
  (responses (webhook env req) =
     [Respond 200 (VObj [("received", VBool true)])] \/
   responses (webhook env req) =
     [Respond 500 (VObj [("error", VStr "Webhook processing failed")])]) /\
  (gateway_calls (webhook env req) = [] \/
   exists id, gateway_calls (webhook env req) = [PaymentGet id]).
Proof.
  unfold answers_once.
  destruct (webhook_cases env req)
    as [(t & _ & ->) | [(ty & data & _ & _ & _ & ->)
       | [(ty & data & t & _ & _ & _ & _ & ->)
       | [(ty & data & id & t & _ & _ & _ & _ & _ & ->)
       | (ty & data & id & info & logs & _ & _ & _ & _ & _ & Hlogs & ->)]]]].
  - repeat split; [|right; reflexivity|left; reflexivity].
    eexists [_], 500%Z. eexists. simpl. repeat split; auto.
  - repeat split; [|left; reflexivity|left; reflexivity].
    eexists [_], 200%Z. eexists. simpl. repeat split; auto.
  - repeat split; [|right; reflexivity|left; reflexivity].
    eexists [_; _], 500%Z. eexists. simpl. repeat split; auto.
  - repeat split; [|right; reflexivity|right; exists id; reflexivity].
    eexists [_; _; _], 500%Z. eexists. simpl. repeat split; auto.
  - assert (Hr : filter is_response logs = [])
      by (apply filter_console_free; [intros [] He; try discriminate; reflexivity
                                     | assumption]).
    assert (Hg : filter is_gateway_call logs = [])
      by (apply filter_console_free; [intros [] He; try discriminate; reflexivity
                                     | assumption]).
    repeat split.
    + exists ([webhook_log ty data; PaymentGet id; payment_info_log info]
                ++ logs)%list, 200%Z, received_true.
      unfold effects, snd. rewrite <- app_assoc. repeat split.
      * rewrite filter_app, Hr. reflexivity.
      * simpl. auto.
    + left. unfold responses, effects, snd.
      rewrite !filter_app, Hr. reflexivity.
    + right. exists id. unfold gateway_calls, effects, snd.
      rewrite !filter_app, Hg. reflexivity.
Qed.

(** X4.  The webhook handler answers 500 exactly when the body cannot be
    read, or the event's [type] is ['payment'] and either its [data] is
    [null] or [undefined] or the lookup of [data.id] rejects. *)
Theorem webhook_failure_causes (env : Env) (req : Request) :
  responses (webhook env req) =
    [Respond 500 (VObj [("error", VStr "Webhook processing failed")])] <->
  nullish (body req) = true \/
  (get_prop (body req) "type" = Normal (VStr "payment") /\
   exists data,
     get_prop (body req) "data" = Normal data /\
     (nullish data = true \/
      exists t, payment_get env (read data "id") = Rejected t)).
Proof.
  split.
  - intros Hresp.
    destruct (webhook_cases env req)
      as [(t & Hty & _) | [(ty & data & _ & _ & _ & Hrun)
         | [(ty & data & t & Hty & Hdata & Heq & Hid & _)
         | [(ty & data & id & t & Hty & Hdata & Heq & Hid & Hget & _)
         | (ty & data & id & info & logs & _ & _ & _ & _ & _ & Hlogs & Hrun)]]]].
    + left. apply (get_prop_throw_iff _ "type"). eauto.
    + rewrite Hrun in Hresp. discriminate.
    + right. apply strict_eq_payment_iff in Heq. subst ty.
      split; [assumption|]. exists data. split; [assumption|].
      left. apply (get_prop_throw_iff _ "id"). eauto.
    + right. apply strict_eq_payment_iff in Heq. subst ty.
      split; [assumption|]. exists data. split; [assumption|].
      right. exists t. rewrite (get_prop_read _ _ _ Hid). assumption.
    + exfalso. rewrite Hrun in Hresp. unfold responses, effects, snd in Hresp.
      rewrite !filter_app in Hresp.
      rewrite (filter_console_free is_response logs) in Hresp;
        [discriminate | intros [] He; try discriminate; reflexivity | assumption].
  - intros [Hbody | (Hty & data & Hdata & Hcause)].
    + apply (get_prop_throw_iff _ "type") in Hbody. destruct Hbody as [t Hty].
      destruct (webhook_no_body env req t Hty) as [_ ->]. reflexivity.
    + destruct (nullish data) eqn:Hnull.
      * apply (get_prop_throw_iff _ "id") in Hnull. destruct Hnull as [t Hid].
        destruct (webhook_no_data env req _ _ _ Hty Hdata eq_refl Hid) as [_ ->].
        reflexivity.
      * destruct Hcause as [Habs | [t Hget]]; [discriminate|].
        pose proof (readable_get_prop data "id" Hnull) as Hid.
        destruct (webhook_lookup_rejected env req _ _ _ _ Hty Hdata eq_refl Hid Hget)
          as [_ ->]. reflexivity.
Qed.

(** X5.  For a ['payment'] event whose [data] can be read, the handler
    makes exactly one gateway call, the lookup of [data.id] as received,
    whether or not the lookup succeeds; a [data] without [id] makes it look
    up [undefined]. *)
Theorem webhook_looks_up_data_id (env : Env) (req : Request) (data : value) :
  get_prop (body req) "type" = Normal (VStr "payment") ->
  get_prop (body req) "data" = Normal data ->
  nullish data = false ->
  gateway_calls (webhook env req) = [PaymentGet (read data "id")] /\
  (forall props, data = VObj props -> assoc "id" props = None ->
     gateway_calls (webhook env req) = [PaymentGet VUndefined]).
Proof.
  intros Hty Hdata Hnull.
  pose proof (readable_get_prop data "id" Hnull) as Hid.
  assert (Hcalls : gateway_calls (webhook env req) = [PaymentGet (read data "id")]).
  { destruct (payment_get env (read data "id")) as [info|t] eqn:Hget.
    - rewrite (webhook_lookup_resolved env req _ _ _ _ Hty Hdata eq_refl Hid Hget).
      destruct (status_switch_logs (field info "status") (read data "id"))
        as (logs & Hsw & Hlogs).
      rewrite Hsw. unfold gateway_calls, effects, snd.
      rewrite !filter_app.
      rewrite (filter_console_free is_gateway_call logs);
        [reflexivity | intros [] He; try discriminate; reflexivity | assumption].
    - destruct (webhook_lookup_rejected env req _ _ _ _ Hty Hdata eq_refl Hid Hget)
        as [_ ->]. reflexivity. }
  split; [assumption|].
  intros props -> Hnone. rewrite Hcalls. unfold read. simpl.
  unfold field. rewrite Hnone. reflexivity.
Qed.

Lemma webhook_looks_up_data_id_witness :
  gateway_calls
    (webhook Sample.env
       (Sample.request (VObj [("type", VStr "payment"); ("data", VObj [])]))) =
    [PaymentGet VUndefined].
Proof.
  apply (proj2 (webhook_looks_up_data_id Sample.env
                  (Sample.request
                     (VObj [("type", VStr "payment"); ("data", VObj [])]))
                  (VObj []) eq_refl eq_refl eq_refl) []);
    reflexivity.
Defined.

(** ** Validation of [items] *)

Lemma strict_eq_zero_iff (v : value) :
  strict_eq v (VNum zero) = true <-> exists s, v = VNum (S754_zero s).
Proof.
  split.
  - destruct v; simpl; try discriminate.
    destruct n; simpl; try discriminate. eauto.
  - intros [s ->]. reflexivity.
Qed.

Lemma items_missing_iff (its : value) :
  items_missing its = ret true <->
  to_boolean its = false \/
  its = VArr [] \/
  exists props s, its = VObj props /\ field props "length" = VNum (S754_zero s).
Proof.
  destruct its as [| |b|n|s|l|props].
  - split; [left|]; reflexivity.
  - split; [left|]; reflexivity.
  - destruct b; (split; [intros H|intros [H|[H|(p & s & H & _)]]]);
      try discriminate; try reflexivity. left. reflexivity.
  - destruct n; (split; [intros H|intros [H|[H|(p & s' & H & _)]]]);
      try discriminate; try reflexivity; left; reflexivity.
  - destruct s; (split; [intros H|intros [H|[H|(p & s' & H & _)]]]);
      try discriminate; try reflexivity. left. reflexivity.
  - destruct l; (split; [intros H|intros [H|[H|(p & s & H & _)]]]);
      try discriminate; try reflexivity. right. left. reflexivity.
  - unfold items_missing. cbn [to_boolean negb get_prop lift bind ret app].
    split.
    + intros H. right. right.
      assert (Hz : strict_eq (field props "length") (VNum zero) = true)
        by (unfold ret in H; injection H as H; exact H).
      apply strict_eq_zero_iff in Hz. destruct Hz as [s Hs]. eauto.
    + intros [H|[H|(p & s & H & Hlen)]]; try discriminate.
      inversion H; subst p. rewrite Hlen. reflexivity.
Qed.

(** X6.  The handler answers 400 [{error: 'Items are required'}] exactly
    when the body can be read and [items] is falsy (absent, [null], [false],
    [0], [""]), the empty array, or an object whose [length] property is
    zero. *)
Theorem items_required_iff (env : Env) (req : Request) :
  responses (create_preference env req) =
    [Respond 400 (VObj [("error", VStr "Items are required")])] <->
  exists its,
    get_prop (body req) "items" = Normal its /\
    (to_boolean its = false \/
     its = VArr [] \/
     exists props s,
       its = VObj props /\ field props "length" = VNum (S754_zero s)).
Proof.
  split.
  - intros Hresp.
    destruct (create_preference_cases env req)
      as [(t & _ & Hrun) | [(its & Hits & Hmiss & _)
         | [(its & t & _ & _ & _ & Hrun)
         | (its & pay & mapped & _ & _ & _ & _ & Hrun)]]].
    + rewrite Hrun in Hresp. discriminate.
    + exists its. split; [assumption|]. apply items_missing_iff. assumption.
    + rewrite Hrun in Hresp. discriminate.
    + exfalso. rewrite Hrun in Hresp.
      destruct (gateway_round_shape env (preferenceData env req mapped (payer_of pay)))
        as [(result & _ & Hg) | (t & _ & Hg)];
        rewrite Hg in Hresp; discriminate.
  - intros (its & Hits & Hcase). apply items_missing_iff in Hcase.
    rewrite (create_preference_rejected _ _ _ Hits Hcase). reflexivity.
Qed.

(** ** When the gateway is called *)

Lemma product_item_nullish (item : value) :
  nullish item = true -> exists msg, product_item item = Throw (ErrorInstance msg).
Proof.
  destruct item; simpl; intros H; try discriminate; eexists; reflexivity.
Qed.

Lemma product_item_normal_readable (item : value) (sent : Item) :
  product_item item = Normal sent -> nullish item = false.
Proof.
  destruct (nullish item) eqn:Hn; [|reflexivity].
  destruct (product_item_nullish item Hn) as [msg ->]. discriminate.
Qed.

Lemma product_item_throw_error (item : value) (t : thrown) :
  product_item item = Throw t ->
  nullish item = true /\ exists msg, t = ErrorInstance msg.
Proof.
  destruct (nullish item) eqn:Hn.
  - destruct (product_item_nullish item Hn) as [msg ->].
    intros H. inversion H. eauto.
  - rewrite (product_item_readable item Hn). discriminate.
Qed.

Lemma map_elems_normal_iff (l : list value) :
  (exists mapped, map_elems product_item l = Normal mapped) <->
  Forall (fun item => nullish item = false) l.
Proof.
  split.
  - intros [mapped H]. apply map_elems_Forall2 in H.
    induction H as [|x y xs ys Hx _ IH]; constructor.
    + apply (product_item_normal_readable x y Hx).
    + exact IH.
  - apply map_elems_readable.
Qed.

Lemma map_elems_throw (l : list value) (t : thrown) :
  map_elems product_item l = Throw t ->
  Exists (fun item => nullish item = true) l /\ exists msg, t = ErrorInstance msg.
Proof.
  induction l as [|x xs IH]; simpl; [discriminate|].
  destruct (product_item x) as [y|t'] eqn:Hx.
  - destruct (map_elems product_item xs) as [ys|t'']; [discriminate|].
    intros H. inversion H; subst. destruct (IH eq_refl) as [Hex Hmsg].
    split; [right; assumption|assumption].
  - intros H. inversion H; subst.
    destruct (product_item_throw_error _ _ Hx) as [Hn Hmsg].
    split; [left; assumption|assumption].
Qed.

Lemma gateway_calls_round (env : Env) (req : Request) (data : PreferenceData) :
  filter is_gateway_call
    (received_log req :: ConsoleLog "PreferenceData final:" (LogPreference data)
       :: gateway_round env data) = [PreferenceCreate data].
Proof.
  unfold gateway_round. destruct (preference_create env data); reflexivity.
Qed.

(** X7.  The create-preference handler calls the gateway at most once, and
    it does so exactly when [items] is a non-empty array none of whose
    elements is [null] or [undefined]; the gateway's answer plays no part in
    whether it is called. *)
Theorem gateway_called_iff (env : Env) (req : Request) :
  (gateway_calls (create_preference env req) = [] \/
   exists data, gateway_calls (create_preference env req) = [PreferenceCreate data]) /\
  ((exists data,
      gateway_calls (create_preference env req) = [PreferenceCreate data]) <->
   exists x xs,
     get_prop (body req) "items" = Normal (VArr (x :: xs)) /\
     Forall (fun item => nullish item = false) (x :: xs)).
Proof.
  destruct (create_preference_cases env req)
    as [(t & Hits & Hrun) | [(its & Hits & Hmiss & Hrun)
       | [(its & t & Hits & Hmiss & Hmap & Hrun)
       | (its & pay & mapped & Hits & Hpay & Hmiss & Hmap & Hrun)]]].
  - rewrite Hrun. split; [left; reflexivity|]. split.
    + intros [data H]. discriminate.
    + intros (x & xs & H & _). rewrite Hits in H. discriminate.
  - rewrite Hrun. split; [left; reflexivity|]. split.
    + intros [data H]. discriminate.
    + intros (x & xs & H & _). rewrite Hits in H. inversion H; subst.
      rewrite nonempty_array_not_missing in Hmiss. discriminate.
  - rewrite Hrun. split; [left; reflexivity|]. split.
    + intros [data H]. discriminate.
    + intros (x & xs & H & Hread). rewrite Hits in H. inversion H; subst.
      simpl in Hmap. apply map_elems_normal_iff in Hread.
      destruct Hread as [mapped Hok]. simpl in Hok. rewrite Hok in Hmap.
      discriminate.
  - rewrite Hrun. unfold gateway_calls, effects, snd.
    rewrite gateway_calls_round. split; [right; eauto|]. split; [|eauto].
    intros _. destruct its; simpl in Hmap; try discriminate.
    destruct elems as [|x xs]; [discriminate Hmiss|].
    exists x, xs. split; [assumption|].
    apply map_elems_normal_iff. eauto.
Qed.

Lemma map_elems_first_throw {A} (f : value -> completion A)
    (pre post : list value) (item : value) (t : thrown) :
  Forall (fun x => exists y, f x = Normal y) pre ->
  f item = Throw t ->
  map_elems f (pre ++ item :: post) = Throw t.
Proof.
  intros Hpre Hitem. induction Hpre as [|x pre [y Hx] _ IH]; simpl.
  - rewrite Hitem. reflexivity.
  - rewrite Hx, IH. reflexivity.
Qed.

(** Every array that holds a [null] or [undefined] element has a first
    one. *)
Lemma first_nullish (l : list value) :
  Exists (fun item => nullish item = true) l ->
  exists pre item post,
    l = (pre ++ item :: post)%list /\
    Forall (fun x => nullish x = false) pre /\
    nullish item = true.
Proof.
  induction 1 as [x xs Hx | x xs _ IH].
  - exists [], x, xs. repeat split; [constructor|assumption].
  - destruct (nullish x) eqn:Hn.
    + exists [], x, xs. repeat split; [constructor|assumption].
    + destruct IH as (pre & item & post & -> & Hpre & Hitem).
      exists (x :: pre), item, post. repeat split; [|assumption].
      constructor; assumption.
Qed.

(** X8.  When [items] is an array whose first [null] or [undefined] element
    is [item], the handler answers 500, not 400; [details] is the message of
    the TypeError that reading [item.id] raises; and the gateway is not
    called. *)
Theorem null_item_is_server_error (env : Env) (req : Request)
    (pre post : list value) (item : value) (msg : string) :
  get_prop (body req) "items" = Normal (VArr (pre ++ item :: post)) ->
  Forall (fun x => nullish x = false) pre ->
  get_prop item "id" = Throw (ErrorInstance msg) ->
  gateway_calls (create_preference env req) = [] /\
  responses (create_preference env req) =
    [Respond 500 (VObj [("error", VStr "Error creating payment preference");
                        ("details", VStr msg)])].
Proof.
  intros Hits Hpre Hid.
  assert (Hitem : product_item item = Throw (ErrorInstance msg))
    by (unfold product_item; rewrite Hid; reflexivity).
  assert (Hmap : call_map (VArr (pre ++ item :: post)) product_item =
                 Throw (ErrorInstance msg)).
  { simpl. apply map_elems_first_throw; [|assumption].
    eapply Forall_impl; [|exact Hpre].
    intros x Hx. rewrite (product_item_readable x Hx). eauto. }
  assert (Hmiss : items_missing (VArr (pre ++ item :: post)) = ret false)
    by (destruct pre; apply nonempty_array_not_missing).
  rewrite (create_preference_map_throws env req _ _ Hits Hmiss Hmap).
  split; reflexivity.
Qed.

Lemma null_item_is_server_error_witness :
  gateway_calls
    (create_preference Sample.env
       (Sample.request (VObj [("items", VArr [Sample.laptop; VNull])]))) = [] /\
  responses
    (create_preference Sample.env
       (Sample.request (VObj [("items", VArr [Sample.laptop; VNull])]))) =
    [Respond 500
       (VObj [("error", VStr "Error creating payment preference");
              ("details", VStr "Cannot read properties of null (reading 'id')")])].
Proof.
  apply (null_item_is_server_error Sample.env
           (Sample.request (VObj [("items", VArr [Sample.laptop; VNull])]))
           [Sample.laptop] [] VNull
           "Cannot read properties of null (reading 'id')").
  - reflexivity.
  - repeat constructor.
  - reflexivity.
Defined.

(** X9.  When [items] is truthy but not an array (a non-empty string, a
    non-zero number, [true], or an object whose [length] is not zero), the
    validation lets it through and [items.map] fails: the handler answers
    500 with [details] ['items.map is not a function'] and does not call the
    gateway. *)
Theorem items_not_array_is_server_error (env : Env) (req : Request) (its : value) :
  get_prop (body req) "items" = Normal its ->
  to_boolean its = true ->
  (forall l, its <> VArr l) ->
  (forall props s, its = VObj props -> field props "length" <> VNum (S754_zero s)) ->
  responses (create_preference env req) =
    [Respond 500 (VObj [("error", VStr "Error creating payment preference");
                        ("details", VStr "items.map is not a function")])] /\
  gateway_calls (create_preference env req) = [].
Proof.
  intros Hits Htruthy Harr Hobj.
  assert (Hmiss : items_missing its = ret false).
  { destruct (items_missing_total its) as [[|] Hm]; [|assumption].
    exfalso. apply items_missing_iff in Hm.
    destruct Hm as [Hf | [Hempty | (props & s & Hp & Hlen)]].
    - rewrite Hf in Htruthy. discriminate.
    - apply (Harr [] Hempty).
    - apply (Hobj props s Hp Hlen). }
  assert (Hmap : call_map its product_item =
                 Throw (ErrorInstance "items.map is not a function")).
  { destruct its; simpl in Htruthy; try discriminate; try reflexivity.
    exfalso. apply (Harr elems eq_refl). }
  rewrite (create_preference_map_throws env req _ _ Hits Hmiss Hmap).
  split; reflexivity.
Qed.

Lemma items_not_array_is_server_error_witness :
  responses
    (create_preference Sample.env
       (Sample.request (VObj [("items", VObj [("0", Sample.laptop)])]))) =
    [Respond 500 (VObj [("error", VStr "Error creating payment preference");
                        ("details", VStr "items.map is not a function")])].
Proof.
  apply (items_not_array_is_server_error Sample.env
           (Sample.request (VObj [("items", VObj [("0", Sample.laptop)])]))
           (VObj [("0", Sample.laptop)])).
  - reflexivity.
  - reflexivity.
  - discriminate.
  - intros props s H. inversion H; subst. discriminate.
Defined.

(** X10.  A 200 is sent only after a gateway call that resolved, and its
    body holds that call's [id], [init_point] and [sandbox_init_point]. *)
Theorem success_needs_resolved_call (env : Env) (req : Request) (b : value) :
  In (Respond 200 b) (effects (create_preference env req)) ->
  exists data result,
    gateway_calls (create_preference env req) = [PreferenceCreate data] /\
    preference_create env data = Resolved result /\
    b = VObj [("id", field result "id");
              ("init_point", field result "init_point");
              ("sandbox_init_point", field result "sandbox_init_point")].
Proof.
  intros Hin.
  destruct (create_preference_cases env req)
    as [(t & _ & Hrun) | [(its & _ & _ & Hrun)
       | [(its & t & _ & _ & _ & Hrun)
       | (its & pay & mapped & _ & _ & _ & _ & Hrun)]]];
    rewrite Hrun in Hin |- *; simpl in Hin.
  - repeat (destruct Hin as [Hin|Hin]; try discriminate). destruct Hin.
  - repeat (destruct Hin as [Hin|Hin]; try discriminate). destruct Hin.
  - repeat (destruct Hin as [Hin|Hin]; try discriminate). destruct Hin.
  - destruct Hin as [Hin|[Hin|Hin]]; try discriminate.
    unfold gateway_calls, effects, snd. rewrite gateway_calls_round.
    destruct (gateway_round_shape env (preferenceData env req mapped (payer_of pay)))
      as [(result & Hres & Hg) | (t & _ & Hg)]; rewrite Hg in Hin; simpl in Hin.
    + destruct Hin as [Hin|[Hin|[]]]; try discriminate.
      inversion Hin; subst. eauto.
    + repeat (destruct Hin as [Hin|Hin]; try discriminate). destruct Hin.
Qed.

Lemma success_needs_resolved_call_witness :
  exists data result,
    gateway_calls (create_preference Sample.env Sample.cart) =
      [PreferenceCreate data] /\
    preference_create Sample.env data = Resolved result /\
    VObj [("id", VStr "pref-1");
          ("init_point", VStr "https://gateway.example/init");
          ("sandbox_init_point", VStr "https://sandbox.gateway.example/init")] =
    VObj [("id", field result "id");
          ("init_point", field result "init_point");
          ("sandbox_init_point", field result "sandbox_init_point")].
Proof.
  apply (success_needs_resolved_call Sample.env Sample.cart).
  simpl. right. right. right. left. reflexivity.
Defined.

(** ** The payer block *)

(** X11.  In every session request the handler sends, the payer block is
    absent exactly when the request's [payer] is falsy; for a [payer] object
    it holds that object's [name], [email] and [phone] as received and
    nothing else; for any other truthy [payer] it holds three [undefined]. *)
Theorem payer_forwarded (env : Env) (req : Request) (data : PreferenceData) :
  In (PreferenceCreate data) (effects (create_preference env req)) ->
  exists pay,
    get_prop (body req) "payer" = Normal pay /\
    (payer data = None <-> to_boolean pay = false) /\
    (forall props, pay = VObj props ->
       payer data = Some {| payer_name := field props "name";
                            payer_email := field props "email";
                            payer_phone := field props "phone" |}) /\
    (to_boolean pay = true -> (forall props, pay <> VObj props) ->
       payer data = Some {| payer_name := VUndefined;
                            payer_email := VUndefined;
                            payer_phone := VUndefined |}).
Proof.
  intros Hin.
  destruct (sent_request_inv _ _ _ Hin) as (l & pay & _ & _ & Hpay & _ & Hdata).
  assert (Hp : payer data = payer_of pay) by (rewrite Hdata; reflexivity).
  exists pay. split; [assumption|]. rewrite Hp. unfold payer_of. repeat split.
  - destruct (to_boolean pay); [discriminate|reflexivity].
  - intros ->. reflexivity.
  - intros props ->. reflexivity.
  - intros Ht Hobj. rewrite Ht.
    destruct pay; simpl in Ht; try discriminate; try reflexivity.
    exfalso. apply (Hobj props eq_refl).
Qed.

Lemma payer_forwarded_witness :
  exists pay,
    get_prop (body Sample.cart) "payer" = Normal pay /\
    (payer Sample.sent = None <-> to_boolean pay = false) /\
    (forall props, pay = VObj props ->
       payer Sample.sent = Some {| payer_name := field props "name";
                                   payer_email := field props "email";
                                   payer_phone := field props "phone" |}) /\
    (to_boolean pay = true -> (forall props, pay <> VObj props) ->
       payer Sample.sent = Some {| payer_name := VUndefined;
                                   payer_email := VUndefined;
                                   payer_phone := VUndefined |}).
Proof.
  apply (payer_forwarded Sample.env Sample.cart Sample.sent).
  simpl. right. right. left. reflexivity.
Defined.

(** ** The external reference *)

Lemma to_int_proper (z : Z) : Z.to_int z <> Decimal.Pos Decimal.Nil /\
                              Z.to_int z <> Decimal.Neg Decimal.Nil.
Proof.
  destruct z as [|p|p]; simpl; split; try discriminate;
    intros H; injection H as H; apply (DecimalPos.Unsigned.to_uint_nonnil p H).
Qed.

Lemma template_of_integer_inj (a b : Z) :
  template_of_integer a = template_of_integer b -> a = b.
Proof.
  unfold template_of_integer. intros H.
  destruct (to_int_proper a) as [Ha1 Ha2].
  destruct (to_int_proper b) as [Hb1 Hb2].
  pose proof (NilZero.isi _ Ha1 Ha2) as Ia.
  pose proof (NilZero.isi _ Hb1 Hb2) as Ib.
  rewrite H, Ib in Ia. injection Ia as Ia.
  apply DecimalZ.to_int_inj. symmetry. exact Ia.
Qed.

(** X12.  The external reference of a session request is fixed by the clock
    alone: two session requests, from any two requests, carry the same
    external reference exactly when they were built in the same
    millisecond. *)
Theorem external_reference_collides (env1 env2 : Env) (req1 req2 : Request)
    (data1 data2 : PreferenceData) :
  In (PreferenceCreate data1) (effects (create_preference env1 req1)) ->
  In (PreferenceCreate data2) (effects (create_preference env2 req2)) ->
  (external_reference data1 = external_reference data2 <-> now env1 = now env2).
Proof.
  intros H1 H2.
  destruct (sent_request_inv _ _ _ H1) as (l1 & p1 & _ & _ & _ & _ & E1).
  destruct (sent_request_inv _ _ _ H2) as (l2 & p2 & _ & _ & _ & _ & E2).
  assert (R1 : external_reference data1 = "order_" ++ template_of_integer (now env1))
    by (rewrite E1; reflexivity).
  assert (R2 : external_reference data2 = "order_" ++ template_of_integer (now env2))
    by (rewrite E2; reflexivity).
  rewrite R1, R2. split.
  - intros H. simpl in H. injection H as H.
    apply template_of_integer_inj. exact H.
  - intros ->. reflexivity.
Qed.

Lemma external_reference_collides_witness :
  external_reference Sample.sent =
    external_reference
      (preferenceData Sample.env_timeout
         (Sample.request (VObj [("items", VArr [Sample.mouse])]))
         [ {| item_id := VStr "sku-2"; item_title := VStr "Mouse";
              item_quantity := VNum Sample.two;
              item_unit_price := VNum Sample.price;
              item_currency_id := VStr "PEN" |} ] None).
Proof.
  apply (external_reference_collides Sample.env Sample.env_timeout
           Sample.cart (Sample.request (VObj [("items", VArr [Sample.mouse])]))).
  - simpl. right. right. left. reflexivity.
  - simpl. right. right. left. reflexivity.
  - reflexivity.
Defined.

(** ** The frontend origin *)

(** X13.  The origin allowed by CORS falls back to
    ['http://localhost:8080'] when [FRONTEND_URL] is unset or empty, but the
    redirect URLs interpolate the variable without a fallback: the success
    URL of a session request is the CORS origin followed by [/success]
    exactly when [FRONTEND_URL] is set and not empty. *)
Theorem redirect_origin_matches_cors (env : Env) (req : Request)
    (data : PreferenceData) :
  In (PreferenceCreate data) (effects (create_preference env req)) ->
  ((exists origin,
      cors_origin env = VStr origin /\
      success (back_urls data) = origin ++ "/success") <->
   exists s, FRONTEND_URL env = Some s /\ s <> "").
Proof.
  intros Hin.
  destruct (sent_request_inv _ _ _ Hin) as (l & pay & _ & _ & _ & _ & Hdata).
  assert (Hs : success (back_urls data) =
               template_of_string (FRONTEND_URL env) ++ "/success")
    by (rewrite Hdata; reflexivity).
  rewrite Hs. unfold cors_origin, or_else.
  destruct (FRONTEND_URL env) as [s|]; simpl.
  - destruct (String.eqb_spec s "") as [->|Hne]; simpl.
    + split.
      * intros (origin & Ho & Hu). inversion Ho; subst. discriminate.
      * intros (s & Hs' & Hne). inversion Hs'; subst. contradiction.
    + split.
      * intros _. exists s. split; [reflexivity|assumption].
      * intros _. exists s. split; reflexivity.
  - split.
    + intros (origin & Ho & Hu). inversion Ho; subst. discriminate.
    + intros (s & Hs' & _). discriminate.
Qed.

Lemma redirect_origin_matches_cors_witness :
  exists origin,
    cors_origin Sample.env = VStr origin /\
    success (back_urls Sample.sent) = origin ++ "/success".
Proof.
  apply (redirect_origin_matches_cors Sample.env Sample.cart Sample.sent).
  - simpl. right. right. left. reflexivity.
  - exists "https://shop.example". split; [reflexivity|discriminate].
Defined.
